(** * Aura reading extension: popup controller and content-script coordinator

    A shallow embedding of [popup.js] (the popup controller) and of the
    content-script entry point (the coordinator of [domAnalyzer],
    [pageReader] and [overlay]), with the properties of the reading-session
    protocol proved over it.

    Layout: a fragment of JavaScript values and errors ([JS]), an effect
    monad with state and exceptions ([Eff]), the shared constants, the popup
    ([Popup]), the coordinator ([Content]), a model of the collaborators
    that are described by contract only ([Contract]), the popup's polling
    timer ([Polling]) and the start-up code with the channel between the
    two scripts ([Wiring]).  The theorems follow the definitions. *)

From Stdlib Require Import ZArith String Ascii List Lia Bool.
From stdpp Require Import base option gmap strings list pretty.

Open Scope string_scope.
Open Scope Z_scope.
Open Scope list_scope.

(** ** A fragment of JavaScript *)

Module JS.

(** Data values as they travel over the extension's message channel:
    primitives and plain objects.  Numbers are the integer-valued ones
    ([JNum z] is the Number nearest to [z]), strings are their UTF-8
    bytes; arrays and functions are outside the fragment. *)
#[warnings="-register-all"]
Inductive jsval : Type :=
  | JUndefined
  | JNull
  | JBool (b : bool)
  | JNum (z : Z)
  | JStr (s : string)
  | JObj (o : gmap string jsval).

(** Thrown values are [Error] objects; only [message] is ever read. *)
Record error : Type := Error { message : string }.

Inductive result (A : Type) : Type :=
  | Ok (a : A)
  | Throw (e : error).
Arguments Ok {A} a.
Arguments Throw {A} e.

(** ToBoolean, as used by [!x], [x && y], [x || y] and [if (x)]. *)
Definition truthy (v : jsval) : bool :=
  match v with
  | JUndefined | JNull => false
  | JBool b => b
  | JNum z => negb (z =? 0)
  | JStr s => negb (String.eqb s "")
  | JObj _ => true
  end.

(** [v === c] for a string constant [c]. *)
Definition is_str (v : jsval) (c : string) : bool :=
  match v with
  | JStr s => String.eqb s c
  | _ => false
  end.

(** [v.k] for a property name [k] that no built-in prototype defines (the
    source reads [type] and [status] only): reading a property of
    [undefined] or [null] throws, a primitive has no such property, an
    object answers with its own property. *)
Definition get_prop (v : jsval) (k : string) : result jsval :=
  match v with
  | JUndefined =>
      Throw (Error ("Cannot read properties of undefined (reading '" +:+ k +:+ "')"))
  | JNull =>
      Throw (Error ("Cannot read properties of null (reading '" +:+ k +:+ "')"))
  | JObj o => Ok (default JUndefined (o !! k))
  | _ => Ok JUndefined
  end.

(** *** Number::toString on integers *)

(** The Number that an integer [y > 0] denotes: [y] rounded to 53
    significant bits, ties to even; [None] is [Infinity]. *)
Definition round_double (y : Z) : option Z :=
  let bits := Z.log2 y + 1 in
  if bits <=? 53 then Some y
  else
    let e := bits - 53 in
    let q := Z.shiftr y e in
    let r := y mod 2 ^ e in
    let half := 2 ^ (e - 1) in
    let q' := if (half <? r) || ((r =? half) && Z.odd q) then q + 1 else q in
    let v := q' * 2 ^ e in
    if 2 ^ 1024 <=? v then None else Some v.

Definition decimal_length (y : Z) : Z := Z.of_nat (String.length (pretty y)).

(** The decimal with the fewest significant digits that still denotes the
    Number [x]: with [k] digits the two candidates are the multiples of
    [10 ^ (n - k)] around [x]; the closer one wins, the even one on a tie. *)
Fixpoint shortest_from (fuel : nat) (k n x : Z) : Z :=
  match fuel with
  | O => x
  | S fuel' =>
      let p := 10 ^ (n - k) in
      let lo := (x / p) * p in
      let hi := lo + p in
      let fits y := match round_double y with
                    | Some v => (0 <? y) && (v =? x)
                    | None => false
                    end in
      match fits lo, fits hi with
      | true, true =>
          if x - lo <? hi - x then lo
          else if hi - x <? x - lo then hi
          else if Z.even (x / p) then lo else hi
      | true, false => lo
      | false, true => hi
      | false, false => shortest_from fuel' (k + 1) n x
      end
  end.

Definition shortest (x : Z) : Z :=
  shortest_from (Z.to_nat (decimal_length x)) 1 (decimal_length x) x.

Fixpoint strip_zeros_rev (s : string) : string :=
  match s with
  | String a r => if Ascii.eqb a "0"%char then strip_zeros_rev r else s
  | EmptyString => EmptyString
  end.

(** The digits of [y] as the language prints them: in full up to 21
    digits, in exponent notation beyond. *)
Definition print_digits (y : Z) : string :=
  let n := decimal_length y in
  if n <=? 21 then pretty y
  else
    let s := String.rev (strip_zeros_rev (String.rev (pretty y))) in
    match s with
    | String d EmptyString => String d ("e+" +:+ pretty (n - 1))
    | String d rest => String d ("." +:+ rest +:+ "e+" +:+ pretty (n - 1))
    | EmptyString => EmptyString
    end.

Definition number_to_string (z : Z) : string :=
  if z =? 0 then "0"
  else
    let sign := if z <? 0 then "-" else "" in
    match round_double (Z.abs z) with
    | None => sign +:+ "Infinity"
    | Some x => sign +:+ print_digits (shortest x)
    end.

(** ToPropertyKey, for [obj[v]].  A plain object converts through the
    inherited [toString]; when an own data property shadows it, neither
    [toString] nor [valueOf] yields a primitive and the conversion throws. *)
Definition to_property_key (v : jsval) : result string :=
  match v with
  | JUndefined => Ok "undefined"
  | JNull => Ok "null"
  | JBool true => Ok "true"
  | JBool false => Ok "false"
  | JNum z => Ok (number_to_string z)
  | JStr s => Ok s
  | JObj o =>
      match o !! "toString" with
      | None => Ok "[object Object]"
      | Some _ => Throw (Error "Cannot convert object to primitive value")
      end
  end.

(** The property names every object literal inherits from
    [Object.prototype]. *)
Definition object_prototype_names : list string :=
  [ "constructor"; "__defineGetter__"; "__defineSetter__"; "hasOwnProperty";
    "__lookupGetter__"; "__lookupSetter__"; "isPrototypeOf";
    "propertyIsEnumerable"; "toString"; "valueOf"; "__proto__";
    "toLocaleString" ].

(** What [obj[k]] finds in an object literal whose own properties are
    strings. *)
Inductive lookup_result : Type :=
  | Own (s : string)
  | Inherited (name : string)
  | Missing.

Definition literal_lookup (obj : gmap string string) (k : string) : lookup_result :=
  match obj !! k with
  | Some s => Own s
  | None => if bool_decide (k ∈ object_prototype_names) then Inherited k else Missing
  end.

(** [found || fallback]: an own empty string and a missing property are
    falsy, an inherited function or object is truthy. *)
Definition or_else (found : lookup_result) (fallback : string) : lookup_result :=
  match found with
  | Own s => if String.eqb s "" then Own fallback else Own s
  | Inherited n => Inherited n
  | Missing => Own fallback
  end.

(** The string a DOM [textContent] setter stores for such a value. *)
Definition text_of (v : lookup_result) : string :=
  match v with
  | Own s => s
  | Inherited n =>
      if String.eqb n "__proto__" then "[object Object]"
      else if String.eqb n "constructor" then "function Object() { [native code] }"
      else "function " +:+ n +:+ "() { [native code] }"
  | Missing => "undefined"
  end.

(** *** [String.prototype.trim] on UTF-8 bytes *)

Definition byte_is (a : ascii) (n : N) : bool := N.eqb (N_of_ascii a) n.

(** TAB, LF, VT, FF, CR and SPACE. *)
Definition ws1 (a : ascii) : bool :=
  let n := N_of_ascii a in
  (N.leb 9 n && N.leb n 13) || N.eqb n 32.

(** U+00A0. *)
Definition ws2 (a b : ascii) : bool := byte_is a 194 && byte_is b 160.

(** U+1680, U+2000..U+200A, U+2028, U+2029, U+202F, U+205F, U+3000 and
    U+FEFF. *)
Definition ws3 (a b d : ascii) : bool :=
  let n := N_of_ascii d in
  (byte_is a 225 && byte_is b 154 && N.eqb n 128)
  || (byte_is a 226 && byte_is b 128
      && ((N.leb 128 n && N.leb n 138) || N.eqb n 168 || N.eqb n 169 || N.eqb n 175))
  || (byte_is a 226 && byte_is b 129 && N.eqb n 159)
  || (byte_is a 227 && byte_is b 128 && N.eqb n 128)
  || (byte_is a 239 && byte_is b 187 && N.eqb n 191).

Fixpoint trimStart (s : string) : string :=
  match s with
  | EmptyString => EmptyString
  | String a r1 =>
      if ws1 a then trimStart r1
      else match r1 with
           | EmptyString => s
           | String b r2 =>
               if ws2 a b then trimStart r2
               else match r2 with
                    | EmptyString => s
                    | String d r3 => if ws3 a b d then trimStart r3 else s
                    end
           end
  end.

(** The same scan over the reversed bytes, for the end of the string. *)
Fixpoint trimStart_rev (s : string) : string :=
  match s with
  | EmptyString => EmptyString
  | String a r1 =>
      if ws1 a then trimStart_rev r1
      else match r1 with
           | EmptyString => s
           | String b r2 =>
               if ws2 b a then trimStart_rev r2
               else match r2 with
                    | EmptyString => s
                    | String d r3 => if ws3 d b a then trimStart_rev r3 else s
                    end
           end
  end.

Definition trimEnd (s : string) : string :=
  String.rev (trimStart_rev (String.rev s)).

Definition trim (s : string) : string := trimEnd (trimStart s).

(** Strings made of white space and line terminators only. *)
Inductive whitespace_only : string -> Prop :=
  | ws_empty : whitespace_only EmptyString
  | ws_one a s : ws1 a = true -> whitespace_only s -> whitespace_only (String a s)
  | ws_two a b s :
      ws2 a b = true -> whitespace_only s -> whitespace_only (String a (String b s))
  | ws_three a b d s :
      ws3 a b d = true -> whitespace_only s ->
      whitespace_only (String a (String b (String d s))).

End JS.

Export JS.

(** ** Stateful computations that may throw *)

Module Eff.

Definition M (S A : Type) : Type := S -> result A * S.

Definition ret {S A} (a : A) : M S A := fun s => (Ok a, s).

Definition bind {S A B} (m : M S A) (k : A -> M S B) : M S B :=
  fun s =>
    match m s with
    | (Ok a, s') => k a s'
    | (Throw e, s') => (Throw e, s')
    end.

Definition throw {S A} (e : error) : M S A := fun s => (Throw e, s).

(** [try { body } catch (e) { handler e }]. *)
Definition try_catch {S A} (body : M S A) (handler : error -> M S A) : M S A :=
  fun s =>
    match body s with
    | (Ok a, s') => (Ok a, s')
    | (Throw e, s') => handler e s'
    end.

Definition lift {S A} (r : result A) : M S A := fun s => (r, s).

Definition modify {S} (f : S -> S) : M S unit := fun s => (Ok tt, f s).

Definition when {S} (b : bool) (m : M S unit) : M S unit :=
  if b then m else ret tt.

End Eff.

Export Eff.

Declare Scope eff_scope.
Delimit Scope eff_scope with eff.
Notation "x <- m ;; k" := (bind m (fun x => k))
  (at level 100, m at next level, right associativity) : eff_scope.
Notation "m ;; k" := (bind m (fun _ => k))
  (at level 100, right associativity) : eff_scope.
Open Scope eff_scope.

(** ** The constants of [common/constants.js] *)

(** [READING_STATUS] and [MESSAGE_TYPES] are imported by both files; their
    values are taken as a parameter. *)
Record constants : Type := Constants {
  IDLE : string;
  READING : string;
  PAUSED : string;
  STOPPED : string;
  COMPLETE : string;
  ERROR : string;
  START_READING : string;
  PAUSE_READING : string;
  RESUME_READING : string;
  STOP_READING : string;
  GET_STATUS : string
}.

Definition statuses (c : constants) : list string :=
  [IDLE c; READING c; PAUSED c; STOPPED c; COMPLETE c; ERROR c].

Definition message_types (c : constants) : list string :=
  [START_READING c; PAUSE_READING c; RESUME_READING c; STOP_READING c; GET_STATUS c].

(** The two tables are enumerations: their members are pairwise
    different. *)
Definition enumerations (c : constants) : Prop :=
  NoDup (statuses c) /\ NoDup (message_types c).

(** Modelled from the spec: [common/constants.js] is not part of the
    examined sources.  The specification gives ['reading'] as the value of
    [READING_STATUS.READING] and names the other members; the values below
    follow that naming. *)
Definition aura : constants :=
  {| IDLE := "idle"; READING := "reading"; PAUSED := "paused";
     STOPPED := "stopped"; COMPLETE := "complete"; ERROR := "error";
     START_READING := "START_READING"; PAUSE_READING := "PAUSE_READING";
     RESUME_READING := "RESUME_READING"; STOP_READING := "STOP_READING";
     GET_STATUS := "GET_STATUS" |}.

(** ** The popup controller ([popup.js]) *)

Module Popup.

(** The module-level [currentStatus], the properties of the DOM elements
    that the script writes, and what it printed with [console.error]. *)
Record popup : Type := {
  currentStatus : jsval;
  statusElement_textContent : string;
  readButton_disabled : bool;
  controls_display : string;
  pauseButton_display : string;
  resumeButton_display : string;
  pauseButton_disabled : bool;
  resumeButton_disabled : bool;
  stopButton_disabled : bool;
  console : list (string * error)
}.

Definition set_currentStatus (v : jsval) (p : popup) : popup :=
  {| currentStatus := v;
     statusElement_textContent := statusElement_textContent p;
     readButton_disabled := readButton_disabled p;
     controls_display := controls_display p;
     pauseButton_display := pauseButton_display p;
     resumeButton_display := resumeButton_display p;
     pauseButton_disabled := pauseButton_disabled p;
     resumeButton_disabled := resumeButton_disabled p;
     stopButton_disabled := stopButton_disabled p;
     console := console p |}.

Definition set_textContent (s : string) (p : popup) : popup :=
  {| currentStatus := currentStatus p;
     statusElement_textContent := s;
     readButton_disabled := readButton_disabled p;
     controls_display := controls_display p;
     pauseButton_display := pauseButton_display p;
     resumeButton_display := resumeButton_display p;
     pauseButton_disabled := pauseButton_disabled p;
     resumeButton_disabled := resumeButton_disabled p;
     stopButton_disabled := stopButton_disabled p;
     console := console p |}.

Definition log_error (label : string) (e : error) (p : popup) : popup :=
  {| currentStatus := currentStatus p;
     statusElement_textContent := statusElement_textContent p;
     readButton_disabled := readButton_disabled p;
     controls_display := controls_display p;
     pauseButton_display := pauseButton_display p;
     resumeButton_display := resumeButton_display p;
     pauseButton_disabled := pauseButton_disabled p;
     resumeButton_disabled := resumeButton_disabled p;
     stopButton_disabled := stopButton_disabled p;
     console := console p ++ [(label, e)] |}.

(** The active tab as the script sees it, and the two platform calls it
    awaits: [chrome.tabs.query] settles with a list of tabs or rejects;
    [chrome.tabs.sendMessage] hands its callback a response, with
    [chrome.runtime.lastError] set or not. *)
Record tab : Type := Tab { id : Z }.

Record chrome : Type := Chrome {
  tabs_query : result (list tab);
  tabs_sendMessage : Z -> jsval -> option string * jsval
}.

Section Controller.

Context (c : constants).

Definition statusMessages : gmap string string :=
  <[ERROR c := "Error reading page"]>
  (<[COMPLETE c := "Reading complete"]>
  (<[STOPPED c := "Stopped"]>
  (<[PAUSED c := "Paused"]>
  (<[READING c := "Reading…"]>
  (<[IDLE c := "Ready to read"]> ∅))))).

Definition updateStatus (status : jsval) : M popup unit :=
  modify (set_currentStatus status) ;;
  key <- lift (to_property_key status) ;;
  modify (set_textContent
            (text_of (or_else (literal_lookup statusMessages key) "Ready to read"))).

Definition updateButtons (status : jsval) : M popup unit :=
  modify (fun p =>
    if is_str status (READING c) then
      {| currentStatus := currentStatus p;
         statusElement_textContent := statusElement_textContent p;
         readButton_disabled := true;
         controls_display := "flex";
         pauseButton_display := "block";
         resumeButton_display := "none";
         pauseButton_disabled := false;
         resumeButton_disabled := true;
         stopButton_disabled := false;
         console := console p |}
    else if is_str status (PAUSED c) then
      {| currentStatus := currentStatus p;
         statusElement_textContent := statusElement_textContent p;
         readButton_disabled := true;
         controls_display := "flex";
         pauseButton_display := "none";
         resumeButton_display := "block";
         pauseButton_disabled := true;
         resumeButton_disabled := false;
         stopButton_disabled := false;
         console := console p |}
    else if is_str status (COMPLETE c) || is_str status (STOPPED c)
            || is_str status (ERROR c) then
      {| currentStatus := currentStatus p;
         statusElement_textContent := statusElement_textContent p;
         readButton_disabled := false;
         controls_display := "flex";
         pauseButton_display := "block";
         resumeButton_display := "none";
         pauseButton_disabled := true;
         resumeButton_disabled := true;
         stopButton_disabled := true;
         console := console p |}
    else
      {| currentStatus := currentStatus p;
         statusElement_textContent := statusElement_textContent p;
         readButton_disabled := false;
         controls_display := "none";
         pauseButton_display := pauseButton_display p;
         resumeButton_display := resumeButton_display p;
         pauseButton_disabled := true;
         resumeButton_disabled := true;
         stopButton_disabled := true;
         console := console p |}).

Context (ch : chrome).

(** [sendMessageToTab(tabId, type)], with [data] at its default [{}]. *)
Definition sendMessageToTab (tabId : Z) (type : string) : M popup jsval :=
  match tabs_sendMessage ch tabId (JObj {[ "type" := JStr type ]}) with
  | (Some lastError, _) => throw (Error lastError)
  | (None, response) => ret response
  end.

(** [const [tab] = await chrome.tabs.query(...)]. *)
Definition query_active_tab : M popup (option tab) :=
  tabs <- lift (tabs_query ch) ;;
  ret (head tabs).

Definition startReading : M popup unit :=
  try_catch
    (updateStatus (JStr (IDLE c)) ;;
     updateButtons (JStr (IDLE c)) ;;
     t <- query_active_tab ;;
     match t with
     | None => throw (Error "No active tab found")
     | Some t =>
         sendMessageToTab (id t) (START_READING c) ;;
         updateStatus (JStr (READING c)) ;;
         updateButtons (JStr (READING c))
     end)
    (fun e =>
       modify (log_error "Error starting reading:" e) ;;
       updateStatus (JStr (ERROR c)) ;;
       updateButtons (JStr (ERROR c))).

Definition pauseReading : M popup unit :=
  try_catch
    (t <- query_active_tab ;;
     match t with
     | Some t =>
         sendMessageToTab (id t) (PAUSE_READING c) ;;
         updateStatus (JStr (PAUSED c)) ;;
         updateButtons (JStr (PAUSED c))
     | None => ret tt
     end)
    (fun e => modify (log_error "Error pausing reading:" e)).

Definition resumeReading : M popup unit :=
  try_catch
    (t <- query_active_tab ;;
     match t with
     | Some t =>
         sendMessageToTab (id t) (RESUME_READING c) ;;
         updateStatus (JStr (READING c)) ;;
         updateButtons (JStr (READING c))
     | None => ret tt
     end)
    (fun e => modify (log_error "Error resuming reading:" e)).

Definition stopReading : M popup unit :=
  try_catch
    (t <- query_active_tab ;;
     match t with
     | Some t =>
         sendMessageToTab (id t) (STOP_READING c) ;;
         updateStatus (JStr (STOPPED c)) ;;
         updateButtons (JStr (STOPPED c))
     | None => ret tt
     end)
    (fun e => modify (log_error "Error stopping reading:" e)).

Definition refreshStatus : M popup unit :=
  try_catch
    (t <- query_active_tab ;;
     match t with
     | Some t =>
         response <- sendMessageToTab (id t) (GET_STATUS c) ;;
         if truthy response then
           status <- lift (get_prop response "status") ;;
           if truthy status then
             updateStatus status ;;
             updateButtons status
           else ret tt
         else ret tt
     | None => ret tt
     end)
    (fun _ =>
       updateStatus (JStr (IDLE c)) ;;
       updateButtons (JStr (IDLE c))).

End Controller.

(** The failures a run can meet before the content script answers: the tab
    query rejects, no tab is active, or the send ends with
    [chrome.runtime.lastError] set (the content script is unreachable). *)
Definition no_active_tab (ch : chrome) : Prop :=
  tabs_query ch = Ok [].

Definition query_rejects (ch : chrome) : Prop :=
  exists e, tabs_query ch = Throw e.

Definition send_fails (ch : chrome) (type : string) : Prop :=
  exists t rest lastError response,
    tabs_query ch = Ok (t :: rest) /\
    tabs_sendMessage ch (id t) (JObj {[ "type" := JStr type ]}) = (Some lastError, response).

Definition fails (ch : chrome) (type : string) : Prop :=
  query_rejects ch \/ no_active_tab ch \/ send_fails ch type.

(** The popup document before the script has touched it: nothing
    disabled, no inline style, no status text. *)
Definition untouched (c : constants) : popup :=
  {| currentStatus := JStr (IDLE c);
     statusElement_textContent := "";
     readButton_disabled := false;
     controls_display := "";
     pauseButton_display := "";
     resumeButton_display := "";
     pauseButton_disabled := false;
     resumeButton_disabled := false;
     stopButton_disabled := false;
     console := [] |}.

(** A platform in which one tab is active and the content script answers
    with [response]. *)
Definition answering (response : jsval) : chrome :=
  Chrome (Ok [Tab 7]) (fun _ _ => (None, response)).

(** A platform with no active tab. *)
Definition tabless : chrome :=
  Chrome (Ok []) (fun _ _ => (None, JUndefined)).

(** A platform in which the content script cannot be reached. *)
Definition unreachable : chrome :=
  Chrome (Ok [Tab 7])
    (fun _ _ => (Some "Could not establish connection. Receiving end does not exist.",
                 JUndefined)).

(** What the user sees of a popup state: everything but the console. *)
Definition display (p : popup) :=
  (currentStatus p, statusElement_textContent p,
   (readButton_disabled p, controls_display p, pauseButton_display p,
    resumeButton_display p),
   (pauseButton_disabled p, resumeButton_disabled p, stopButton_disabled p)).

(** Which controls the user can press, and whether the control row shows. *)
Record controls_view : Type := View {
  start_enabled : bool;
  pause_enabled : bool;
  resume_enabled : bool;
  stop_enabled : bool;
  row_hidden : bool
}.

Definition view (p : popup) : controls_view :=
  {| start_enabled := negb (readButton_disabled p);
     pause_enabled := negb (pauseButton_disabled p);
     resume_enabled := negb (resumeButton_disabled p);
     stop_enabled := negb (stopButton_disabled p);
     row_hidden := String.eqb (controls_display p) "none" |}.

End Popup.

(** ** The content-script coordinator *)

Module Content.

(** The calls the coordinator makes on its three collaborators. *)
Inductive call : Type :=
  | ExtractPageContent
  | OverlayExists
  | OverlayCreate
  | OverlayShow
  | OverlayUpdateStatus (status : string)
  | OverlayUpdateButtons (status : string)
  | ReaderStartReading (content : jsval)
  | ReaderPauseReading
  | ReaderResumeReading
  | ReaderStopReading
  | ReaderGetStatus
  | ReaderIsReading
  | ReaderIsPaused.

(** The collaborators are known by interface: every call may change their
    state, and returns a value or throws (a rejected promise, for the
    awaited [pageReader.startReading]). *)
Class Collaborators (W : Type) : Type :=
  perform : call -> W -> result jsval * W.

(** What a run does that is visible from outside the coordinator: the
    calls on the collaborators with what each returned or threw, the
    responses sent and the console. *)
Inductive event : Type :=
  | Called (k : call) (outcome : result jsval)
  | Responded (response : jsval)
  | ConsoleError (label : string) (e : error).

Record state (W : Type) : Type := State {
  world : W;
  trace : list event
}.
Arguments State {W} world trace.
Arguments world {W} s.
Arguments trace {W} s.

Definition success : jsval := JObj {[ "success" := JBool true ]}.

Definition failure (message : string) : jsval := JObj {[ "error" := JStr message ]}.

Definition status_report (status isReading isPaused : jsval) : jsval :=
  JObj (<["isPaused" := isPaused]>
       (<["isReading" := isReading]>
       (<["status" := status]> ∅))).

Section Coordinator.

Context (c : constants) {W : Type} `{!Collaborators W}.

Definition record (e : event) : M (state W) unit :=
  modify (fun s => State (world s) (trace s ++ [e])).

Definition invoke (k : call) : M (state W) jsval :=
  fun s =>
    let (r, w) := perform k (world s) in
    (r, State w (trace s ++ [Called k r])).

(** The transport's response callback. *)
Definition sendResponse (response : jsval) : M (state W) unit :=
  record (Responded response).

Definition console_error (label : string) (e : error) : M (state W) unit :=
  record (ConsoleError label e).

(** [!content || content.trim().length === 0]; calling [trim] on a truthy
    value that is not a string throws. *)
Definition no_content (content : jsval) : result bool :=
  if negb (truthy content) then Ok true
  else match content with
       | JStr s => Ok (Nat.eqb (String.length (trim s)) 0)
       | _ => Throw (Error "content.trim is not a function")
       end.

Definition startReading : M (state W) unit :=
  try_catch
    (content <- invoke ExtractPageContent ;;
     empty <- lift (no_content content) ;;
     (if empty then throw (Error "No readable content found on this page")
      else ret tt) ;;
     exists_ <- invoke OverlayExists ;;
     (if negb (truthy exists_) then invoke OverlayCreate ;; ret tt else ret tt) ;;
     invoke OverlayShow ;;
     invoke (OverlayUpdateStatus (IDLE c)) ;;
     invoke (OverlayUpdateButtons (IDLE c)) ;;
     invoke (ReaderStartReading content) ;;
     ret tt)
    (fun e =>
       console_error "Error starting reading:" e ;;
       exists_ <- invoke OverlayExists ;;
       (if truthy exists_ then
          invoke (OverlayUpdateStatus (ERROR c)) ;;
          invoke (OverlayUpdateButtons (ERROR c)) ;;
          ret tt
        else ret tt) ;;
       throw e).

(** The [switch] inside the handler's [try] block. *)
Definition dispatch (message : jsval) : M (state W) unit :=
  type <- lift (get_prop message "type") ;;
  if is_str type (START_READING c) then
    startReading ;;
    sendResponse success
  else if is_str type (PAUSE_READING c) then
    invoke ReaderPauseReading ;;
    sendResponse success
  else if is_str type (RESUME_READING c) then
    invoke ReaderResumeReading ;;
    sendResponse success
  else if is_str type (STOP_READING c) then
    invoke ReaderStopReading ;;
    sendResponse success
  else if is_str type (GET_STATUS c) then
    status <- invoke ReaderGetStatus ;;
    isReading <- invoke ReaderIsReading ;;
    isPaused <- invoke ReaderIsPaused ;;
    sendResponse (status_report status isReading isPaused)
  else
    sendResponse (failure "Unknown message type").

Definition handleMessage (message : jsval) : M (state W) unit :=
  try_catch
    (dispatch message)
    (fun e =>
       console_error "Error handling message:" e ;;
       sendResponse (failure (JS.message e))).

(** Messages handled one after the other, each to completion. *)
Fixpoint handleMessages (messages : list jsval) : M (state W) unit :=
  match messages with
  | [] => ret tt
  | m :: rest => handleMessage m ;; handleMessages rest
  end.

End Coordinator.

(** Reading a trace. *)
Definition responses (t : list event) : list jsval :=
  omap (fun e => match e with Responded v => Some v | _ => None end) t.

Definition calls (t : list event) : list call :=
  omap (fun e => match e with Called k _ => Some k | _ => None end) t.

(** No call of the run threw. *)
Definition no_call_threw (t : list event) : Prop :=
  forall k e, Called k (Throw e) ∉ t.

(** Computations that send no response, whatever else they do. *)
Definition silent {W A} (m : M (state W) A) : Prop :=
  forall s, responses (trace (snd (m s))) = responses (trace s).

(** What a branch of the dispatcher answers when nothing throws. *)
Inductive branch_response : jsval -> Prop :=
  | answer_success : branch_response success
  | answer_report status isReading isPaused :
      branch_response (status_report status isReading isPaused)
  | answer_unknown : branch_response (failure "Unknown message type").

(** Computations that send one response when they return and none when
    they throw. *)
Definition answers_once {W A} (m : M (state W) A) : Prop :=
  forall s,
    match fst (m s) with
    | Ok _ =>
        exists v, responses (trace (snd (m s))) = responses (trace s) ++ [v] /\
                  branch_response v
    | Throw _ => responses (trace (snd (m s))) = responses (trace s)
    end.

(** The events of a run started on the collaborator state [w]. *)
Definition run {W A} (m : M (state W) A) (w : W) : result A * state W :=
  m (State w []).

Definition message_of_type (type : jsval) : jsval := JObj {[ "type" := type ]}.

(** A message that is not a START_READING request. *)
Definition not_start (c : constants) (message : jsval) : Prop :=
  get_prop message "type" <> Ok (JStr (START_READING c)).

End Content.

(** ** The collaborators, by contract *)

Module Contract.

Import Content.

(** Modelled from the spec: [domAnalyzer.js], [pageReader.js] and
    [overlay.js] are not part of the examined sources.  The page reader
    holds the session state, created as IDLE, and guards the transitions
    (start from IDLE, STOPPED, COMPLETE or ERROR; pause from READING; resume
    from PAUSED; stop from READING or PAUSED); the overlay is a singleton
    that exists once created; the extractor returns the page's text.  A
    status change reaches the overlay through the callback registered by
    [init]. *)
Record site : Type := Site {
  page_text : string;
  overlay_created : bool;
  overlay_shown : bool;
  overlay_status : option string;
  overlay_buttons : option string;
  reader_status : string
}.

Definition loaded (c : constants) (text : string) : site :=
  {| page_text := text; overlay_created := false; overlay_shown := false;
     overlay_status := None; overlay_buttons := None;
     reader_status := IDLE c |}.

(** The status callback of [init]: [overlay.updateStatus(status)] and
    [overlay.updateButtons(status)]. *)
Definition transition (status : string) (w : site) : site :=
  {| page_text := page_text w; overlay_created := overlay_created w;
     overlay_shown := overlay_shown w;
     overlay_status := Some status; overlay_buttons := Some status;
     reader_status := status |}.

Definition in_status (w : site) (status : string) : bool :=
  String.eqb (reader_status w) status.

Definition contract (c : constants) : Collaborators site :=
  fun k w =>
    match k with
    | ExtractPageContent => (Ok (JStr (page_text w)), w)
    | OverlayExists => (Ok (JBool (overlay_created w)), w)
    | OverlayCreate =>
        (Ok JUndefined,
         {| page_text := page_text w; overlay_created := true;
            overlay_shown := overlay_shown w;
            overlay_status := overlay_status w;
            overlay_buttons := overlay_buttons w;
            reader_status := reader_status w |})
    | OverlayShow =>
        (Ok JUndefined,
         {| page_text := page_text w; overlay_created := overlay_created w;
            overlay_shown := true;
            overlay_status := overlay_status w;
            overlay_buttons := overlay_buttons w;
            reader_status := reader_status w |})
    | OverlayUpdateStatus s =>
        (Ok JUndefined,
         {| page_text := page_text w; overlay_created := overlay_created w;
            overlay_shown := overlay_shown w;
            overlay_status := Some s;
            overlay_buttons := overlay_buttons w;
            reader_status := reader_status w |})
    | OverlayUpdateButtons s =>
        (Ok JUndefined,
         {| page_text := page_text w; overlay_created := overlay_created w;
            overlay_shown := overlay_shown w;
            overlay_status := overlay_status w;
            overlay_buttons := Some s;
            reader_status := reader_status w |})
    | ReaderStartReading _ =>
        (Ok JUndefined,
         if in_status w (IDLE c) || in_status w (STOPPED c)
            || in_status w (COMPLETE c) || in_status w (ERROR c)
         then transition (READING c) w else w)
    | ReaderPauseReading =>
        (Ok JUndefined,
         if in_status w (READING c) then transition (PAUSED c) w else w)
    | ReaderResumeReading =>
        (Ok JUndefined,
         if in_status w (PAUSED c) then transition (READING c) w else w)
    | ReaderStopReading =>
        (Ok JUndefined,
         if in_status w (READING c) || in_status w (PAUSED c)
         then transition (STOPPED c) w else w)
    | ReaderGetStatus => (Ok (JStr (reader_status w)), w)
    | ReaderIsReading => (Ok (JBool (in_status w (READING c))), w)
    | ReaderIsPaused => (Ok (JBool (in_status w (PAUSED c))), w)
    end.

(** Collaborators of which every call throws: a handler that calls one of
    them cannot answer as if it had not. *)
Definition failing_collaborators : Collaborators unit :=
  fun _ w => (Throw (Error "collaborator called"), w).

End Contract.

(** ** The popup's polling timer *)

Module Polling.

(** The function handed to [setInterval]. *)
Inductive callback : Type := RefreshStatus.

(** The [beforeunload] listener: the closure that calls
    [clearInterval(statusInterval)] on the handle it captured. *)
Inductive listener : Type := ClearInterval (handle : nat).

Record timer : Type := Timer {
  callback_of : callback;
  period : N;
  due : N
}.

(** What happened in the popup's window, with the time in milliseconds. *)
Inductive entry : Type :=
  | Invoked (f : callback) (at_ms : N)
  | TimerFired (f : callback) (at_ms : N)
  | Unloaded (at_ms : N).

Record window : Type := Window {
  now : N;
  timers : gmap nat timer;
  next_handle : nat;
  beforeunload : list listener;
  log : list entry
}.

(** A popup window that has just been opened. *)
Definition opened (t0 : N) : window :=
  {| now := t0; timers := ∅; next_handle := 1; beforeunload := []; log := [] |}.

Definition setInterval (f : callback) (ms : N) (w : window) : nat * window :=
  (next_handle w,
   {| now := now w;
      timers := <[next_handle w := Timer f ms (now w + ms)]> (timers w);
      next_handle := S (next_handle w);
      beforeunload := beforeunload w;
      log := log w |}).

Definition clearInterval (handle : nat) (w : window) : window :=
  {| now := now w; timers := delete handle (timers w);
     next_handle := next_handle w; beforeunload := beforeunload w;
     log := log w |}.

Definition addEventListener_beforeunload (l : listener) (w : window) : window :=
  {| now := now w; timers := timers w; next_handle := next_handle w;
     beforeunload := beforeunload w ++ [l]; log := log w |}.

Definition call_direct (f : callback) (w : window) : window :=
  {| now := now w; timers := timers w; next_handle := next_handle w;
     beforeunload := beforeunload w; log := log w ++ [Invoked f (now w)] |}.

(** The last statements of the script: [refreshStatus()], then the timer,
    then the listener that clears it. *)
Definition script (w : window) : window :=
  let w1 := call_direct RefreshStatus w in
  let (statusInterval, w2) := setInterval RefreshStatus 1000 w1 in
  addEventListener_beforeunload (ClearInterval statusInterval) w2.

Definition run_listener (w : window) (l : listener) : window :=
  match l with
  | ClearInterval handle => clearInterval handle w
  end.

(** One millisecond passes: every timer that falls due fires and is
    rescheduled one period later. *)
Definition is_due (t : N) (tm : timer) : bool := N.eqb (due tm) t.

Definition reschedule (t : N) (tm : timer) : timer :=
  if is_due t tm then Timer (callback_of tm) (period tm) (due tm + period tm) else tm.

Definition firing (t : N) (tms : gmap nat timer) : list entry :=
  omap (fun '(_, tm) => if is_due t tm then Some (TimerFired (callback_of tm) t) else None)
       (map_to_list tms).

Definition tick (w : window) : window :=
  let t := (now w + 1)%N in
  {| now := t;
     timers := reschedule t <$> timers w;
     next_handle := next_handle w;
     beforeunload := beforeunload w;
     log := log w ++ firing t (timers w) |}.

(** The popup is torn down: the [beforeunload] listeners run. *)
Definition unload (w : window) : window :=
  foldl run_listener
    {| now := now w; timers := timers w; next_handle := next_handle w;
       beforeunload := beforeunload w; log := log w ++ [Unloaded (now w)] |}
    (beforeunload w).

Inductive step : Type := Tick | BeforeUnload.

Definition do_step (w : window) (s : step) : window :=
  match s with
  | Tick => tick w
  | BeforeUnload => unload w
  end.

Definition steps (w : window) (l : list step) : window := foldl do_step w l.

(** The window [1000 * k + r] milliseconds after the script ran at [t0],
    with the timer still set: it has fired [k] times and is due again at
    the next multiple of the period. *)
Definition polling (t0 : N) (k : nat) (r : N) : window :=
  {| now := t0 + 1000 * N.of_nat k + r;
     timers := {[ 1%nat := Timer RefreshStatus 1000 (t0 + 1000 * (N.of_nat k + 1)) ]};
     next_handle := 2;
     beforeunload := [ClearInterval 1];
     log := Invoked RefreshStatus t0
            :: map (fun i => TimerFired RefreshStatus (t0 + 1000 * N.of_nat i)) (seq 1 k) |}.

(** What every window reached from the script satisfies: the one listener
    clears handle 1, and no other timer is set. *)
Definition guarded (w : window) : Prop :=
  beforeunload w = [ClearInterval 1] /\
  (timers w = ∅ \/ exists tm, timers w = {[ 1%nat := tm ]}).

(** The times at which the timer called [refreshStatus]. *)
Definition timer_calls (l : list entry) : list N :=
  omap (fun e => match e with TimerFired RefreshStatus t => Some t | _ => None end) l.

End Polling.

(** ** Start-up code and the channel between the two scripts *)

Module Wiring.

Import Popup Content.

(** The popup's first two statements after the listeners are attached:
    [updateStatus(READING_STATUS.IDLE); updateButtons(READING_STATUS.IDLE)]. *)
Definition initialise (c : constants) : M popup unit :=
  updateStatus c (JStr (IDLE c)) ;;
  updateButtons c (JStr (IDLE c)).

(** The statuses for which [updateButtons] takes one of its three named
    [case] groups rather than [default]. *)
Definition named_case (c : constants) (s : string) : bool :=
  is_str (JStr s) (READING c) || is_str (JStr s) (PAUSED c)
  || (is_str (JStr s) (COMPLETE c) || is_str (JStr s) (STOPPED c)
      || is_str (JStr s) (ERROR c)).

Section Init.

Context (c : constants) {W : Type} `{!Collaborators W}.

(** The three closures that [init] hands to [overlay.setCallbacks]. *)
Definition onPause : M (state W) unit :=
  invoke ReaderPauseReading ;; ret tt.

Definition onResume : M (state W) unit :=
  invoke ReaderResumeReading ;; ret tt.

Definition onStop : M (state W) unit :=
  invoke ReaderStopReading ;; ret tt.

(** The closure that [init] hands to [pageReader.setStatusCallback]. *)
Definition statusCallback (status : string) : M (state W) unit :=
  invoke (OverlayUpdateStatus status) ;;
  invoke (OverlayUpdateButtons status) ;;
  ret tt.

(** One call on a collaborator followed by the handler's answer: the
    success object when the call returns, the error's message, after a
    console line, when it throws. *)
Definition answered (k : call) (w : W) : result unit * state W :=
  let (r, w1) := perform k w in
  (Ok tt,
   State w1
     (Called k r ::
      match r with
      | Ok _ => [Responded success]
      | Throw e => [ConsoleError "Error handling message:" e;
                    Responded (failure (JS.message e))]
      end)).

(** The closure that [init] hands to [onContentMessage]: the promise of
    [handleMessage] is dropped and the listener returns [true]. *)
Definition listener (message : jsval) : M (state W) jsval :=
  fun s => (Ok (JBool true), snd (handleMessage c message s)).

(** What the sender of [message] gets back when the page's collaborators
    are in state [w]: the first argument passed to [sendResponse]. *)
Definition deliver (w : W) (message : jsval) : jsval :=
  default JUndefined (head (responses (trace (snd (run (listener message) w))))).

(** The platform as the popup sees it when the active tab [tabId] runs the
    coordinator over [w]: a message to that tab is answered by the
    listener, a message to any other tab has no receiving end. *)
Definition linked (w : W) (tabId : Z) : chrome :=
  Chrome (Ok [Tab tabId])
    (fun target message =>
       if Z.eqb target tabId then (None, deliver w message)
       else (Some "Could not establish connection. Receiving end does not exist.",
             JUndefined)).

End Init.

(** The collaborators of the contract on a device that cannot speak:
    [pageReader.startReading] rejects, everything else is as in
    [Contract.contract]. *)
Definition speechless (c : constants) : Collaborators Contract.site :=
  fun k w =>
    match k with
    | ReaderStartReading _ => (Throw (Error "Speech synthesis is not available"), w)
    | _ => Contract.contract c k w
    end.

End Wiring.

(** * Properties *)

Import Popup Content.

(** ** Facts about the fragment *)

Lemma is_str_same (s : string) : is_str (JStr s) s = true.
Proof. simpl. apply String.eqb_refl. Qed.

Lemma is_str_other (s t : string) : s <> t -> is_str (JStr s) t = false.
Proof. intros Hne. simpl. now apply String.eqb_neq. Qed.

Lemma is_str_true (v : jsval) (s : string) : is_str v s = true -> v = JStr s.
Proof.
  destruct v; simpl; try discriminate.
  intros Heq. apply String.eqb_eq in Heq. now subst.
Qed.

Lemma is_str_false (v : jsval) (s : string) : v <> JStr s -> is_str v s = false.
Proof.
  intros Hne. destruct (is_str v s) eqn:E; [|reflexivity].
  apply is_str_true in E. contradiction.
Qed.

(** Leading white space is all that [trimStart] removes, so nothing is left
    of a string that has nothing else. *)
Lemma trimStart_whitespace_only (s : string) :
  whitespace_only s -> trimStart s = "".
Proof.
  induction 1 as [|a s Ha _ IH|a b s Hab _ IH|a b d s Habd _ IH].
  - reflexivity.
  - simpl. now rewrite Ha.
  - assert (E1 : ws1 a = false).
    { unfold ws2, byte_is in Hab. apply andb_prop in Hab as [Ha _].
      apply N.eqb_eq in Ha. unfold ws1. now rewrite Ha. }
    simpl. now rewrite E1, Hab.
  - assert (Ha : N_of_ascii a ∈ [225; 226; 227; 239]%N).
    { unfold ws3, byte_is in Habd. cbv zeta in Habd.
      generalize dependent (N_of_ascii a). intros n Habd.
      repeat rewrite ?orb_true_iff, ?andb_true_iff, ?N.eqb_eq in Habd.
      destruct Habd as [[[[H|H]|H]|H]|H]; destruct H as [[-> _] _];
        set_solver. }
    assert (E1 : ws1 a = false).
    { unfold ws1. cbv zeta. revert Ha. generalize (N_of_ascii a). intros n Hn.
      repeat (apply elem_of_cons in Hn as [->|Hn]; [reflexivity|]).
      now apply elem_of_nil in Hn. }
    assert (E2 : ws2 a b = false).
    { unfold ws2, byte_is. revert Ha. generalize (N_of_ascii a). intros n Hn.
      repeat (apply elem_of_cons in Hn as [->|Hn]; [reflexivity|]).
      now apply elem_of_nil in Hn. }
    simpl. now rewrite E1, E2, Habd.
Qed.

Lemma trim_whitespace_only (s : string) : whitespace_only s -> trim s = "".
Proof.
  intros Hws. unfold trim. now rewrite (trimStart_whitespace_only s Hws).
Qed.

Example trim_inner_space_kept :
  trim (String (ascii_of_nat 9) " a b  ") = "a b".
Proof. reflexivity. Qed.

(** U+00A0 in front and U+2028 behind are removed as well. *)
Example trim_unicode_space :
  trim (String (ascii_of_nat 194) (String (ascii_of_nat 160) "x y")
        +:+ String (ascii_of_nat 226) (String (ascii_of_nat 128)
              (String (ascii_of_nat 168) ""))) = "x y".
Proof. reflexivity. Qed.

Example property_key_of_number : to_property_key (JNum (-5)) = Ok "-5".
Proof. reflexivity. Qed.

(** From 21 digits on a number is printed with an exponent, and beyond 53
    bits with the digits of the nearest Number. *)
Example property_key_of_large_number :
  to_property_key (JNum (10 ^ 21)) = Ok "1e+21" /\
  to_property_key (JNum (2 ^ 53 + 1)) = Ok "9007199254740992" /\
  to_property_key (JNum (2 ^ 60)) = Ok "1152921504606847000" /\
  to_property_key (JNum 123456789012345678901234567890) = Ok "1.2345678901234568e+29".
Proof. repeat split; vm_compute; reflexivity. Qed.

(** The members of an enumeration are pairwise different. *)
Lemma statuses_distinct (c : constants) :
  NoDup (statuses c) ->
  IDLE c <> READING c /\ IDLE c <> PAUSED c /\ IDLE c <> STOPPED c /\
  IDLE c <> COMPLETE c /\ IDLE c <> ERROR c /\
  READING c <> PAUSED c /\ READING c <> STOPPED c /\ READING c <> COMPLETE c /\
  READING c <> ERROR c /\
  PAUSED c <> STOPPED c /\ PAUSED c <> COMPLETE c /\ PAUSED c <> ERROR c /\
  STOPPED c <> COMPLETE c /\ STOPPED c <> ERROR c /\
  COMPLETE c <> ERROR c.
Proof.
  unfold statuses. intros H.
  repeat (apply NoDup_cons in H as [? H]).
  repeat match goal with
         | Hn : _ ∉ _ |- _ => rewrite ?not_elem_of_cons in Hn; revert Hn
         end.
  intuition congruence.
Qed.

Lemma message_types_distinct (c : constants) :
  NoDup (message_types c) ->
  START_READING c <> PAUSE_READING c /\ START_READING c <> RESUME_READING c /\
  START_READING c <> STOP_READING c /\ START_READING c <> GET_STATUS c /\
  PAUSE_READING c <> RESUME_READING c /\ PAUSE_READING c <> STOP_READING c /\
  PAUSE_READING c <> GET_STATUS c /\
  RESUME_READING c <> STOP_READING c /\ RESUME_READING c <> GET_STATUS c /\
  STOP_READING c <> GET_STATUS c.
Proof.
  unfold message_types. intros H.
  repeat (apply NoDup_cons in H as [? H]).
  repeat match goal with
         | Hn : _ ∉ _ |- _ => rewrite ?not_elem_of_cons in Hn; revert Hn
         end.
  intuition congruence.
Qed.

Lemma aura_enumerations : enumerations aura.
Proof.
  unfold enumerations. split.
  - apply (bool_decide_unpack _). vm_compute. exact I.
  - apply (bool_decide_unpack _). vm_compute. exact I.
Qed.

(** ** The popup *)

Section PopupFacts.

Context (c : constants).

Lemma updateStatus_string (s : string) (p : popup) :
  updateStatus c (JStr s) p =
    (Ok tt,
     set_textContent
       (text_of (or_else (literal_lookup (statusMessages c) s) "Ready to read"))
       (set_currentStatus (JStr s) p)).
Proof. reflexivity. Qed.

Lemma updateButtons_returns (status : jsval) (p : popup) :
  fst (updateButtons c status p) = Ok tt.
Proof. reflexivity. Qed.

Lemma updateButtons_keeps (status : jsval) (p : popup) :
  let q := snd (updateButtons c status p) in
  currentStatus q = currentStatus p /\
  statusElement_textContent q = statusElement_textContent p /\
  console q = console p.
Proof.
  unfold updateButtons, modify. simpl.
  destruct (is_str status (READING c)); [easy|].
  destruct (is_str status (PAUSED c)); [easy|].
  now destruct (is_str status (COMPLETE c) || is_str status (STOPPED c)
                || is_str status (ERROR c)).
Qed.

(** A key outside the table and outside [Object.prototype] finds nothing. *)
Lemma statusMessages_miss (key : string) :
  key ∉ statuses c -> statusMessages c !! key = None.
Proof.
  unfold statuses, statusMessages. rewrite !not_elem_of_cons.
  intros (? & ? & ? & ? & ? & ? & _).
  now rewrite !lookup_insert_ne, lookup_empty by congruence.
Qed.

Lemma statusMessages_idle :
  NoDup (statuses c) -> statusMessages c !! IDLE c = Some "Ready to read".
Proof.
  intros Hd. apply statuses_distinct in Hd.
  unfold statusMessages.
  rewrite !lookup_insert_ne by (intuition congruence).
  apply lookup_insert_eq.
Qed.


(** Showing a string status, as every handler does, cannot fail. *)
Lemma show_string_status (s : string) (p : popup) :
  let r := (updateStatus c (JStr s) ;; updateButtons c (JStr s)) p in
  fst r = Ok tt /\ currentStatus (snd r) = JStr s.
Proof.
  unfold bind. rewrite updateStatus_string. split; [reflexivity|].
  now rewrite (proj1 (updateButtons_keeps (JStr s) _)).
Qed.

End PopupFacts.

Example label_of_reading (p : popup) :
  statusElement_textContent (snd (updateStatus aura (JStr "reading") p)) = "Reading…".
Proof. reflexivity. Qed.

(** The popup does not look inside the response to START_READING: an
    error object from the content script still puts READING on display. *)
Example startReading_error_response :
  currentStatus
    (snd (Popup.startReading aura
            (answering (JObj {[ "error" := JStr "No readable content found on this page" ]}))
            (untouched aura)))
  = JStr "reading".
Proof. reflexivity. Qed.

(** C2. [updateButtons] decides the controls from its argument alone:
    READING enables pause and stop only, PAUSED enables resume and stop
    only, COMPLETE, STOPPED and ERROR enable start only, and every other
    value (IDLE included, and every value outside the enumeration) hides the
    control row with pause, resume and stop disabled. *)
Theorem updateButtons_table (c : constants) (p : popup) :
  NoDup (statuses c) ->
  let after status := snd (updateButtons c status p) in
  view (after (JStr (READING c))) = View false true false true false /\
  view (after (JStr (PAUSED c))) = View false false true true false /\
  (forall s, s ∈ [COMPLETE c; STOPPED c; ERROR c] ->
     view (after (JStr s)) = View true false false false false) /\
  view (after (JStr (IDLE c))) = View true false false false true /\
  (forall v, (forall s, s ∈ statuses c -> v <> JStr s) ->
     view (after v) = View true false false false true) /\
  (forall status q,
     fst (updateButtons c status q) = Ok tt /\
     view (snd (updateButtons c status q)) = view (after status)).
Proof.
  intros Hd after. subst after.
  pose proof (statuses_distinct c Hd) as D.
  refine (conj _ (conj _ (conj _ (conj _ (conj _ _))))).
  - unfold updateButtons, modify. cbn [snd]. now rewrite is_str_same.
  - unfold updateButtons, modify. cbn [snd].
    rewrite (is_str_other (PAUSED c) (READING c)) by (intuition congruence).
    now rewrite is_str_same.
  - intros s Hs. unfold updateButtons, modify. cbn [snd].
    repeat (apply elem_of_cons in Hs as [->|Hs]);
      [| | |now apply elem_of_nil in Hs];
      rewrite (is_str_other _ (READING c)), (is_str_other _ (PAUSED c))
        by (intuition congruence);
      rewrite is_str_same, ?orb_true_r; reflexivity.
  - unfold updateButtons, modify. cbn [snd].
    rewrite !(is_str_other (IDLE c)) by (intuition congruence). reflexivity.
  - intros v Hv. unfold updateButtons, modify. cbn [snd].
    rewrite !is_str_false
      by (apply Hv; unfold statuses; rewrite !elem_of_cons; tauto).
    reflexivity.
  - intros status q. split; [reflexivity|].
    unfold updateButtons, modify. cbn [snd].
    destruct (is_str status (READING c)); [reflexivity|].
    destruct (is_str status (PAUSED c)); [reflexivity|].
    now destruct (is_str status (COMPLETE c) || is_str status (STOPPED c)
                  || is_str status (ERROR c)).
Qed.

Lemma updateButtons_table_witness :
  NoDup (statuses aura) /\
  let after status := snd (updateButtons aura status (untouched aura)) in
  view (after (JStr "reading")) = View false true false true false /\
  view (after (JStr "paused")) = View false false true true false /\
  view (after (JStr "stopped")) = View true false false false false /\
  view (after (JNum 7)) = View true false false false true.
Proof.
  split; [exact (proj1 aura_enumerations)|].
  destruct (updateButtons_table aura (untouched aura) (proj1 aura_enumerations))
    as (Hr & Hp & Ht & _ & Hd & _).
  refine (conj Hr (conj Hp (conj _ _))).
  - apply (Ht "stopped"). rewrite !elem_of_cons. tauto.
  - apply (Hd (JNum 7)). intros s _. discriminate.
Defined.

(** What the fallback of [updateStatus] does cover: a status whose
    property key is neither one of the six statuses nor a name inherited
    from [Object.prototype] gets the label of IDLE. *)
Lemma updateStatus_cache_and_label (c : constants) (status : jsval) (p : popup) :
  NoDup (statuses c) ->
  currentStatus (snd (updateStatus c status p)) = status /\
  (forall key,
     to_property_key status = Ok key ->
     key ∉ statuses c ->
     key ∉ object_prototype_names ->
     statusElement_textContent (snd (updateStatus c status p)) = "Ready to read") /\
  statusElement_textContent (snd (updateStatus c (JStr (IDLE c)) p)) = "Ready to read".
Proof.
  intros Hd. refine (conj _ (conj _ _)).
  - unfold updateStatus, bind, modify, lift.
    now destruct (to_property_key status).
  - intros key Hkey Hs Hp.
    unfold updateStatus, bind, modify, lift. rewrite Hkey. cbn [snd].
    unfold literal_lookup. rewrite (statusMessages_miss c key Hs).
    now rewrite bool_decide_eq_false_2.
  - rewrite updateStatus_string. cbn [snd].
    unfold literal_lookup. now rewrite (statusMessages_idle c Hd).
Qed.

(** C10. [updateStatus] stores its argument in [currentStatus] whatever it
    is.  The label, however, does not fall back to 'Ready to read' for every
    status outside the enumeration: for 'constructor', and for every other
    name that the table inherits from [Object.prototype], the lookup finds
    the inherited property, which is truthy, and the label becomes its
    text. *)
Theorem updateStatus_misses_inherited_names :
  (forall (c : constants) (status : jsval) (p : popup),
     currentStatus (snd (updateStatus c status p)) = status) /\
  (let q := snd (updateStatus aura (JStr "constructor") (untouched aura)) in
   ("constructor" ∉ statuses aura) /\
   statusElement_textContent q = "function Object() { [native code] }" /\
   statusElement_textContent q <> "Ready to read") /\
  Forall
    (fun name =>
       forall p : popup,
         statusElement_textContent (snd (updateStatus aura (JStr name) p))
           = text_of (Inherited name) /\
         text_of (Inherited name) <> "Ready to read")
    object_prototype_names.
Proof.
  refine (conj _ (conj _ _)).
  - intros c status p. unfold updateStatus, bind, modify, lift.
    now destruct (to_property_key status).
  - cbv zeta. refine (conj _ (conj _ _)).
    + apply (bool_decide_unpack _). vm_compute. exact I.
    + vm_compute. reflexivity.
    + vm_compute. discriminate.
  - unfold object_prototype_names.
    repeat (apply Forall_cons; split;
            [intros p; split; [rewrite updateStatus_string; reflexivity
                              |vm_compute; discriminate]|]).
    apply Forall_nil. exact I.
Qed.

(** Unfolding one handler down to its platform calls. *)
Ltac unfold_handler :=
  unfold Popup.startReading, pauseReading, resumeReading, stopReading,
    refreshStatus, query_active_tab, sendMessageToTab,
    try_catch, bind, ret, throw, lift, modify.

(** C1, as the code has it.  A response whose [status] is a non-empty
    string is adopted as the display state; a rejected tab query or a send
    that ends with [lastError] (an unreachable content script) resets the
    display to IDLE; with no active tab, or with no response, the display is
    left as it was. *)
Theorem refreshStatus_display (c : constants) (ch : chrome) (p : popup) :
  let q := snd (refreshStatus c ch p) in
  (forall t rest response s,
     tabs_query ch = Ok (t :: rest) ->
     tabs_sendMessage ch (id t) (JObj {[ "type" := JStr (GET_STATUS c) ]})
       = (None, response) ->
     get_prop response "status" = Ok (JStr s) ->
     s <> "" ->
     q = snd ((updateStatus c (JStr s) ;; updateButtons c (JStr s)) p) /\
     currentStatus q = JStr s) /\
  (query_rejects ch \/ send_fails ch (GET_STATUS c) ->
     q = snd ((updateStatus c (JStr (IDLE c)) ;; updateButtons c (JStr (IDLE c))) p) /\
     currentStatus q = JStr (IDLE c)) /\
  (no_active_tab ch -> q = p) /\
  (forall t rest response,
     tabs_query ch = Ok (t :: rest) ->
     tabs_sendMessage ch (id t) (JObj {[ "type" := JStr (GET_STATUS c) ]})
       = (None, response) ->
     truthy response = false ->
     q = p).
Proof.
  intros q. subst q. refine (conj _ (conj _ (conj _ _))).
  - intros t rest response s Hq Hsend Hstatus Hs.
    assert (Htr : truthy response = true).
    { destruct response; try reflexivity; simpl in Hstatus; try discriminate.
      all: injection Hstatus; discriminate. }
    assert (Hts : truthy (JStr s) = true).
    { simpl. apply negb_true_iff. now apply String.eqb_neq. }
    assert (Hrun : refreshStatus c ch p
                   = (updateStatus c (JStr s) ;; updateButtons c (JStr s)) p).
    { unfold_handler. rewrite Hq. cbn [head]. rewrite Hsend, Htr, Hstatus, Hts.
      rewrite updateStatus_string. reflexivity. }
    rewrite Hrun. split; [reflexivity|].
    apply (show_string_status c s p).
  - intros Hfail.
    assert (Hrun : refreshStatus c ch p
                   = (updateStatus c (JStr (IDLE c)) ;; updateButtons c (JStr (IDLE c))) p).
    { destruct Hfail as [[e He]|(t & rest & err & response & Hq & Hsend)].
      - unfold_handler. rewrite He. reflexivity.
      - unfold_handler. rewrite Hq. cbn [head]. rewrite Hsend. reflexivity. }
    rewrite Hrun. split; [reflexivity|].
    apply (show_string_status c (IDLE c) p).
  - intros Hnone. unfold no_active_tab in Hnone.
    unfold_handler. rewrite Hnone. reflexivity.
  - intros t rest response Hq Hsend Hfalsy.
    unfold_handler. rewrite Hq. cbn [head]. rewrite Hsend, Hfalsy. reflexivity.
Qed.

Lemma refreshStatus_display_witness :
  let reading := JObj {[ "status" := JStr "reading" ]} in
  currentStatus (snd (refreshStatus aura (answering reading) (untouched aura)))
    = JStr "reading" /\
  currentStatus (snd (refreshStatus aura unreachable (untouched aura))) = JStr "idle" /\
  snd (refreshStatus aura tabless (untouched aura)) = untouched aura.
Proof.
  cbv zeta. refine (conj _ (conj _ _)).
  - destruct (refreshStatus_display aura
                (answering (JObj {[ "status" := JStr "reading" ]})) (untouched aura))
      as (Hadopt & _).
    apply (Hadopt (Tab 7) [] (JObj {[ "status" := JStr "reading" ]}) "reading");
      [reflexivity|reflexivity|reflexivity|discriminate].
  - destruct (refreshStatus_display aura unreachable (untouched aura))
      as (_ & Hreset & _).
    apply Hreset. right.
    exists (Tab 7), [], "Could not establish connection. Receiving end does not exist.",
      JUndefined.
    split; reflexivity.
  - destruct (refreshStatus_display aura tabless (untouched aura))
      as (_ & _ & Hkeep & _).
    apply Hkeep. reflexivity.
Defined.

(** C1 as stated fails: with READING on display and no active tab,
    [refreshStatus] leaves READING on display instead of IDLE. *)
Lemma refreshStatus_no_tab_counterexample :
  let p := snd ((updateStatus aura (JStr "reading") ;;
                 updateButtons aura (JStr "reading")) (untouched aura)) in
  no_active_tab tabless /\
  currentStatus (snd (refreshStatus aura tabless p)) = JStr "reading" /\
  currentStatus (snd (refreshStatus aura tabless p)) <> JStr (IDLE aura).
Proof.
  cbv zeta. refine (conj _ (conj _ _)).
  - reflexivity.
  - reflexivity.
  - discriminate.
Qed.

Section Asymmetry.

Context (c : constants) (ch : chrome) (p : popup).

Lemma startReading_unfold :
  Popup.startReading c ch p =
    match (updateStatus c (JStr (IDLE c)) ;; updateButtons c (JStr (IDLE c))) p with
    | (_, p1) =>
        match tabs_query ch with
        | Throw e =>
            (updateStatus c (JStr (ERROR c)) ;; updateButtons c (JStr (ERROR c)))
              (log_error "Error starting reading:" e p1)
        | Ok [] =>
            (updateStatus c (JStr (ERROR c)) ;; updateButtons c (JStr (ERROR c)))
              (log_error "Error starting reading:" (Error "No active tab found") p1)
        | Ok (t :: _) =>
            match tabs_sendMessage ch (id t) (JObj {[ "type" := JStr (START_READING c) ]}) with
            | (Some lastError, _) =>
                (updateStatus c (JStr (ERROR c)) ;; updateButtons c (JStr (ERROR c)))
                  (log_error "Error starting reading:" (Error lastError) p1)
            | (None, _) =>
                (updateStatus c (JStr (READING c)) ;; updateButtons c (JStr (READING c))) p1
            end
        end
    end.
Proof.
  unfold_handler. rewrite !updateStatus_string. cbn [fst snd].
  destruct (tabs_query ch) as [[|t rest]|e]; cbn [head]; try reflexivity.
  destruct (tabs_sendMessage ch (id t) _) as [[err|] response]; reflexivity.
Qed.

End Asymmetry.

Section FailureCases.

Context (c : constants) (ch : chrome) (p : popup).



End FailureCases.



(** ** The coordinator *)

Section CoordinatorFacts.

Context (c : constants) {W : Type} `{!Collaborators W}.

Lemma silent_ret {A} (a : A) : silent (@ret (state W) A a).
Proof. intros s. reflexivity. Qed.

Lemma silent_throw {A} (e : error) : silent (@throw (state W) A e).
Proof. intros s. reflexivity. Qed.

Lemma silent_lift {A} (r : result A) : silent (@lift (state W) A r).
Proof. intros s. reflexivity. Qed.

Lemma silent_bind {A B} (m : M (state W) A) (k : A -> M (state W) B) :
  silent m -> (forall a, silent (k a)) -> silent (bind m k).
Proof.
  intros Hm Hk s. unfold bind. specialize (Hm s).
  destruct (m s) as [[a|e] s']; cbn [snd] in *; [|exact Hm].
  now rewrite (Hk a s').
Qed.

Lemma silent_try_catch {A} (m : M (state W) A) (h : error -> M (state W) A) :
  silent m -> (forall e, silent (h e)) -> silent (try_catch m h).
Proof.
  intros Hm Hh s. unfold try_catch. specialize (Hm s).
  destruct (m s) as [[a|e] s']; cbn [snd] in *; [exact Hm|].
  now rewrite (Hh e s').
Qed.

Lemma silent_invoke (k : call) : silent (invoke k).
Proof.
  intros s. unfold invoke. destruct (perform k (world s)) as [r w].
  cbn [snd trace]. unfold responses. rewrite omap_app. cbn.
  now rewrite app_nil_r.
Qed.

Lemma silent_console_error (label : string) (e : error) :
  silent (W:=W) (console_error label e).
Proof.
  intros s. unfold console_error, record, modify. cbn [snd trace].
  unfold responses. rewrite omap_app. cbn. now rewrite app_nil_r.
Qed.

Lemma silent_if {A} (b : bool) (m1 m2 : M (state W) A) :
  silent m1 -> silent m2 -> silent (if b then m1 else m2).
Proof. now destruct b. Qed.

Lemma startReading_silent : silent (Content.startReading c).
Proof.
  unfold Content.startReading.
  repeat first
    [ apply silent_try_catch | apply silent_bind | apply silent_if
    | apply silent_invoke | apply silent_console_error | apply silent_ret
    | apply silent_throw | apply silent_lift | intros ? ].
Qed.

(** [sendResponse] adds exactly its argument. *)
Lemma sendResponse_once (v : jsval) (s : state W) :
  sendResponse v s = (Ok tt, State (world s) (trace s ++ [Responded v])).
Proof. reflexivity. Qed.

Lemma responses_snoc (t : list event) (v : jsval) :
  responses (t ++ [Responded v]) = responses t ++ [v].
Proof. unfold responses. now rewrite omap_app. Qed.

End CoordinatorFacts.

Section Dispatch.

Context (c : constants) {W : Type} `{!Collaborators W}.

Lemma responses_console (t : list event) (label : string) (e : error) :
  responses (t ++ [ConsoleError label e]) = responses t.
Proof. unfold responses. rewrite omap_app. cbn. apply app_nil_r. Qed.

Lemma answers_once_send (v : jsval) :
  branch_response v -> answers_once (W:=W) (sendResponse v).
Proof.
  intros Hv s. rewrite sendResponse_once. cbn [fst snd trace].
  exists v. now rewrite responses_snoc.
Qed.

Lemma answers_once_bind {A B} (m : M (state W) A) (k : A -> M (state W) B) :
  silent m -> (forall a, answers_once (k a)) -> answers_once (bind m k).
Proof.
  intros Hm Hk s. unfold bind. specialize (Hm s).
  destruct (m s) as [[a|e] s']; cbn [fst snd] in *; [|exact Hm].
  specialize (Hk a s'). rewrite Hm in Hk. exact Hk.
Qed.

Lemma answers_once_if {A} (b : bool) (m1 m2 : M (state W) A) :
  answers_once m1 -> answers_once m2 -> answers_once (if b then m1 else m2).
Proof. now destruct b. Qed.

Lemma dispatch_answers_once (message : jsval) : answers_once (dispatch c message).
Proof.
  unfold dispatch.
  apply answers_once_bind; [apply silent_lift|]. intros type.
  repeat apply answers_once_if;
    repeat first
      [ apply answers_once_send; constructor
      | apply answers_once_bind;
          [first [apply silent_invoke | apply startReading_silent]|intros ?] ].
Qed.

(** The handler around the dispatcher: the branch's answer when it returns,
    the error's message when it throws. *)
Lemma handleMessage_cases (message : jsval) (s : state W) :
  match dispatch c message s with
  | (Ok _, s') => handleMessage c message s = (Ok tt, s')
  | (Throw e, s') =>
      handleMessage c message s =
        (Ok tt,
         State (world s')
           (trace s' ++ [ConsoleError "Error handling message:" e]
                     ++ [Responded (failure (JS.message e))]))
  end.
Proof.
  unfold handleMessage, try_catch.
  destruct (dispatch c message s) as [[[]|e] s']; [reflexivity|].
  unfold bind, console_error, sendResponse, record, modify. cbn.
  now rewrite <- app_assoc.
Qed.

(** Whatever the state, one message adds one response. *)
Lemma handleMessage_answer (message : jsval) (s : state W) :
  fst (handleMessage c message s) = Ok tt /\
  exists v,
    responses (trace (snd (handleMessage c message s))) = responses (trace s) ++ [v].
Proof.
  pose proof (handleMessage_cases message s) as Hcases.
  pose proof (dispatch_answers_once message s) as Honce.
  destruct (dispatch c message s) as [[[]|e] s']; rewrite Hcases; cbn [fst snd trace] in *.
  - split; [reflexivity|]. destruct Honce as (v & Hv & _). now exists v.
  - split; [reflexivity|]. exists (failure (JS.message e)).
    now rewrite app_assoc, responses_snoc, responses_console, Honce.
Qed.

End Dispatch.

(** C5. A message whose [type] is none of the five message types is
    answered with [{error: 'Unknown message type'}] and nothing else
    happens: no collaborator is called and their state is unchanged. *)
Theorem unknown_type_no_effect
    (c : constants) {W : Type} `{!Collaborators W} (message type : jsval) (w : W) :
  get_prop message "type" = Ok type ->
  (forall t, t ∈ message_types c -> type <> JStr t) ->
  run (handleMessage c message) w =
    (Ok tt, State w [Responded (failure "Unknown message type")]) /\
  calls (trace (snd (run (handleMessage c message) w))) = [].
Proof.
  intros Hget Hnone.
  assert (Hrun : run (handleMessage c message) w =
                 (Ok tt, State w [Responded (failure "Unknown message type")])).
  { unfold run, handleMessage, dispatch, try_catch. unfold bind at 1. unfold lift.
    rewrite Hget.
    rewrite !is_str_false
      by (apply Hnone; unfold message_types; rewrite !elem_of_cons; tauto).
    reflexivity. }
  rewrite Hrun. split; reflexivity.
Qed.

Lemma unknown_type_no_effect_witness :
  let message := message_of_type (JStr "TOGGLE_READING") in
  get_prop message "type" = Ok (JStr "TOGGLE_READING") /\
  (forall t, t ∈ message_types aura -> JStr "TOGGLE_READING" <> JStr t) /\
  @run unit unit (@handleMessage aura unit Contract.failing_collaborators message) tt =
    (Ok tt, State tt [Responded (failure "Unknown message type")]).
Proof.
  cbv zeta.
  assert (Hnone : forall t, t ∈ message_types aura -> JStr "TOGGLE_READING" <> JStr t).
  { intros t Ht Heq. injection Heq as <-.
    revert Ht. apply (bool_decide_unpack _). vm_compute. exact I. }
  refine (conj eq_refl (conj Hnone _)).
  apply (@unknown_type_no_effect aura unit Contract.failing_collaborators
           (message_of_type (JStr "TOGGLE_READING")) (JStr "TOGGLE_READING") tt
           eq_refl Hnone).
Defined.

Section StartReading.

Context (c : constants) {W : Type} `{!Collaborators W}.

Lemma no_content_whitespace (s : string) :
  whitespace_only s -> no_content (JStr s) = Ok true.
Proof.
  intros Hws. unfold no_content.
  destruct (negb (truthy (JStr s))); [reflexivity|].
  now rewrite (trim_whitespace_only s Hws).
Qed.

(** The dispatcher on a START_READING message. *)
Lemma dispatch_start (message : jsval) (s : state W) :
  get_prop message "type" = Ok (JStr (START_READING c)) ->
  dispatch c message s =
    match Content.startReading c s with
    | (Ok _, s') => sendResponse success s'
    | (Throw e, s') => (Throw e, s')
    end.
Proof.
  intros Hget. unfold dispatch. unfold bind at 1. unfold lift.
  rewrite Hget, is_str_same. reflexivity.
Qed.

End StartReading.

(** Deciding that a call is absent from an explicit list of calls. *)
Ltac absent :=
  let Hin := fresh "Hin" in
  intros Hin;
  repeat (apply elem_of_cons in Hin as [Hin|Hin]; [discriminate Hin|]);
  now apply elem_of_nil in Hin.

(** Deciding that an event is present in an explicit trace. *)
Ltac present := rewrite !elem_of_cons; tauto.

(** C3. When the extractor returns an empty or whitespace-only string,
    [startReading] throws without calling [overlay.create] or
    [overlay.show], and the START_READING handler answers with the thrown
    error's message, not with [{success: true}]; the message is the
    no-content one unless the overlay itself threw while the error was being
    shown. *)
Theorem empty_content_fails
    (c : constants) {W : Type} `{!Collaborators W}
    (message : jsval) (s : string) (w w1 : W) :
  get_prop message "type" = Ok (JStr (START_READING c)) ->
  whitespace_only s ->
  perform ExtractPageContent w = (Ok (JStr s), w1) ->
  let started := run (Content.startReading c) w in
  let handled := run (handleMessage c message) w in
  exists e,
    fst started = Throw e /\
    (OverlayCreate ∉ calls (trace (snd handled))) /\
    (OverlayShow ∉ calls (trace (snd handled))) /\
    calls (trace (snd handled)) = calls (trace (snd started)) /\
    responses (trace (snd handled)) = [failure (JS.message e)] /\
    failure (JS.message e) <> success /\
    (no_call_threw (trace (snd started)) ->
     JS.message e = "No readable content found on this page").
Proof.
  intros Hget Hws Hextract started handled. subst started handled. unfold run.
  pose proof (handleMessage_cases c message (State w [])) as Hcases.
  rewrite (dispatch_start c message _ Hget) in Hcases.
  assert (Hne : forall m, failure m <> success).
  { intros m Heq.
    apply (f_equal (fun v => get_prop v "success")) in Heq.
    vm_compute in Heq. discriminate Heq. }
  revert Hcases.
  unfold Content.startReading, sendResponse, try_catch, bind, invoke, lift,
    throw, ret, console_error, record, modify.
  cbn [fst snd world trace app]. rewrite Hextract.
  rewrite (no_content_whitespace s Hws). cbn [fst snd world trace app].
  destruct (perform OverlayExists w1) as [[ex|e1] w2]; cbn [fst snd world trace app].
  - destruct (truthy ex); cbn [fst snd world trace app].
    + destruct (perform (OverlayUpdateStatus (ERROR c)) w2) as [[r1|e2] w3];
        cbn [fst snd world trace app].
      * destruct (perform (OverlayUpdateButtons (ERROR c)) w3) as [[r2|e3] w4];
          cbn [fst snd world trace app]; intros ->; cbn [fst snd world trace app].
        -- eexists. repeat split; try reflexivity; try absent; try apply Hne.
        -- eexists. repeat split; try reflexivity; try absent; try apply Hne.
           intros Hquiet. exfalso.
           apply (Hquiet (OverlayUpdateButtons (ERROR c)) e3). present.
      * intros ->; cbn [fst snd world trace app].
        eexists. repeat split; try reflexivity; try absent; try apply Hne.
        intros Hquiet. exfalso.
        apply (Hquiet (OverlayUpdateStatus (ERROR c)) e2). present.
    + intros ->; cbn [fst snd world trace app].
      eexists. repeat split; try reflexivity; try absent; try apply Hne.
  - intros ->; cbn [fst snd world trace app].
    eexists. repeat split; try reflexivity; try absent; try apply Hne.
    intros Hquiet. exfalso. apply (Hquiet OverlayExists e1). present.
Qed.

(** One collaborator call, or one test on a returned value, at a time. *)
Ltac step :=
  match goal with
  | |- context [perform ?k ?w] =>
      destruct (perform k w) as [[?|?] ?]; cbn [fst snd world trace app negb]
  | |- context [no_content ?v] =>
      destruct (no_content v) as [[|]|?]; cbn [fst snd world trace app negb]
  | |- context [truthy ?v] =>
      destruct (truthy v); cbn [fst snd world trace app negb]
  end.

Ltac unfold_coordinator :=
  unfold run, Content.startReading, sendResponse, try_catch, bind, invoke, lift,
    throw, ret, console_error, record, modify;
  cbn [fst snd world trace app].

Section Overlay.

Context (c : constants) {W : Type} `{!Collaborators W}.

(** A run of [startReading] that returns has asked [overlay.exists]. *)
Lemma startReading_returns_asked (w : W) (s' : state W) :
  run (Content.startReading c) w = (Ok tt, s') ->
  OverlayExists ∈ calls (trace s').
Proof.
  unfold_coordinator.
  repeat step; intros Hrun; try discriminate Hrun;
    injection Hrun as <-; cbn; present.
Qed.

End Overlay.

(** C7. When [startReading] runs again after a run that returned, and
    [overlay.exists()] answers true, both runs ask [overlay.exists], the
    second never calls [overlay.create], and a second run that returns has
    made exactly the calls extract, exists, show, updateStatus(IDLE),
    updateButtons(IDLE) and [pageReader.startReading]. *)
Theorem second_start_reuses_overlay
    (c : constants) {W : Type} `{!Collaborators W}
    (w w' w1 w2 : W) (t1 : list event) (content exists_ : jsval) :
  run (Content.startReading c) w = (Ok tt, State w' t1) ->
  perform ExtractPageContent w' = (Ok content, w1) ->
  no_content content = Ok false ->
  perform OverlayExists w1 = (Ok exists_, w2) ->
  truthy exists_ = true ->
  let second := run (Content.startReading c) w' in
  (OverlayExists ∈ calls t1) /\
  (OverlayExists ∈ calls (trace (snd second))) /\
  (OverlayCreate ∉ calls (trace (snd second))) /\
  (fst second = Ok tt ->
   calls (trace (snd second)) =
     [ExtractPageContent; OverlayExists; OverlayShow;
      OverlayUpdateStatus (IDLE c); OverlayUpdateButtons (IDLE c);
      ReaderStartReading content]).
Proof.
  intros Hfirst Hextract Hcontent Hexists Htruthy second. subst second.
  split; [exact (startReading_returns_asked c w _ Hfirst)|].
  clear Hfirst.
  unfold_coordinator.
  rewrite Hextract, Hcontent. cbn [fst snd world trace app].
  rewrite Hexists, Htruthy. cbn [fst snd world trace app negb].
  repeat step; cbn;
    (split; [present|split; [absent|intros Hok; try discriminate Hok; reflexivity]]).
Qed.

Section GetStatus.

Context (c : constants) {W : Type} `{!Collaborators W}.

(** GET_STATUS reads the three values from the page reader, in order, and
    answers with them. *)
Lemma get_status_reads_reader
    (message status isReading isPaused : jsval) (w w1 w2 w3 : W) (t : list event) :
  NoDup (message_types c) ->
  get_prop message "type" = Ok (JStr (GET_STATUS c)) ->
  perform ReaderGetStatus w = (Ok status, w1) ->
  perform ReaderIsReading w1 = (Ok isReading, w2) ->
  perform ReaderIsPaused w2 = (Ok isPaused, w3) ->
  handleMessage c message (State w t) =
    (Ok tt,
     State w3
       (t ++ [Called ReaderGetStatus (Ok status);
              Called ReaderIsReading (Ok isReading);
              Called ReaderIsPaused (Ok isPaused);
              Responded (status_report status isReading isPaused)])).
Proof.
  intros Hd Hget H1 H2 H3. apply message_types_distinct in Hd.
  unfold handleMessage, dispatch, try_catch. unfold bind at 1. unfold lift.
  rewrite Hget.
  rewrite !(is_str_other (GET_STATUS c)) by (intuition congruence).
  rewrite is_str_same.
  unfold sendResponse, bind, invoke, record, modify. cbn [fst snd world trace].
  rewrite H1. cbn [fst snd world trace]. rewrite H2. cbn [fst snd world trace].
  rewrite H3. cbn [fst snd world trace].
  now rewrite <- !app_assoc.
Qed.

End GetStatus.

Section BeforeStart.

Import Contract.

Context (c : constants) (Hstatuses : NoDup (statuses c)).

Lemma idle_is_not_reading (w : site) :
  reader_status w = IDLE c ->
  in_status w (READING c) = false /\ in_status w (PAUSED c) = false.
Proof.
  intros Hidle. unfold in_status. rewrite Hidle.
  pose proof (statuses_distinct c Hstatuses) as D.
  split; apply String.eqb_neq; intuition congruence.
Qed.

(** While the reader is idle, a message other than START_READING leaves
    the collaborators as they are. *)
Lemma idle_preserved (message : jsval) (s : state site) :
  reader_status (world s) = IDLE c ->
  not_start c message ->
  world (snd (handleMessage (Collaborators0:=contract c) c message s)) = world s.
Proof.
  intros Hidle Hns. destruct (idle_is_not_reading _ Hidle) as [Hr Hp].
  unfold not_start in Hns.
  unfold handleMessage, dispatch, try_catch. unfold bind at 1. unfold lift.
  destruct (get_prop message "type") as [type|e]; [|reflexivity].
  destruct (is_str type (START_READING c)) eqn:Hstart.
  { apply is_str_true in Hstart. subst type. contradiction. }
  unfold sendResponse, bind, invoke, record, modify, perform, contract.
  destruct (is_str type (PAUSE_READING c)).
  { cbn [fst snd world trace]. now rewrite Hr. }
  destruct (is_str type (RESUME_READING c)).
  { cbn [fst snd world trace]. now rewrite Hp. }
  destruct (is_str type (STOP_READING c)).
  { cbn [fst snd world trace]. now rewrite Hr, Hp. }
  destruct (is_str type (GET_STATUS c)); reflexivity.
Qed.

Lemma idle_preserved_all (earlier : list jsval) (s : state site) :
  reader_status (world s) = IDLE c ->
  Forall (not_start c) earlier ->
  let r := handleMessages (Collaborators0:=contract c) c earlier s in
  fst r = Ok tt /\ world (snd r) = world s.
Proof.
  intros Hidle Hall. revert s Hidle.
  induction Hall as [|m rest Hm _ IH]; intros s Hidle; [now split|].
  cbn [handleMessages]. unfold bind.
  pose proof (idle_preserved m s Hidle Hm) as Hw.
  pose proof (handleMessage_answer (Collaborators0:=contract c) c m s) as [Hok _].
  destruct (handleMessage c m s) as [[[]|e] s1]; cbn [fst snd] in *;
    [|discriminate Hok].
  rewrite <- Hw. apply IH. now rewrite Hw.
Qed.

End BeforeStart.

(** C6. GET_STATUS is answered with [{status, isReading, isPaused}] as the
    page reader returns them; and with the page reader of the contract, as
    long as no START_READING has been handled, the answer is
    [{status: IDLE, isReading: false, isPaused: false}]. *)
Theorem get_status_report (c : constants) :
  NoDup (message_types c) ->
  NoDup (statuses c) ->
  (forall (W : Type) (collaborators : Collaborators W)
          (message status isReading isPaused : jsval) (w w1 w2 w3 : W),
     get_prop message "type" = Ok (JStr (GET_STATUS c)) ->
     perform ReaderGetStatus w = (Ok status, w1) ->
     perform ReaderIsReading w1 = (Ok isReading, w2) ->
     perform ReaderIsPaused w2 = (Ok isPaused, w3) ->
     responses (trace (snd (run (handleMessage c message) w)))
       = [status_report status isReading isPaused]) /\
  (forall (text : string) (earlier : list jsval) (message : jsval),
     Forall (not_start c) earlier ->
     get_prop message "type" = Ok (JStr (GET_STATUS c)) ->
     let handled :=
       run (handleMessages (Collaborators0:=Contract.contract c) c earlier ;;
            handleMessage (Collaborators0:=Contract.contract c) c message)
           (Contract.loaded c text) in
     fst handled = Ok tt /\
     last (responses (trace (snd handled)))
       = Some (status_report (JStr (IDLE c)) (JBool false) (JBool false))).
Proof.
  intros Htypes Hstatuses. split.
  - intros W collaborators message status isReading isPaused w w1 w2 w3
      Hget H1 H2 H3.
    unfold run.
    rewrite (get_status_reads_reader c message status isReading isPaused
               w w1 w2 w3 [] Htypes Hget H1 H2 H3).
    reflexivity.
  - intros text earlier message Hall Hget handled. subst handled.
    unfold run, bind.
    pose proof (idle_preserved_all c Hstatuses earlier
                  (State (Contract.loaded c text) []) eq_refl Hall) as [Hok Hw].
    destruct (handleMessages c earlier (State (Contract.loaded c text) []))
      as [[[]|e] [w t]]; cbn [fst snd world] in *; [|discriminate Hok].
    subst w.
    destruct (idle_is_not_reading c Hstatuses (Contract.loaded c text) eq_refl)
      as [Hr Hp].
    rewrite (get_status_reads_reader (Collaborators0:=Contract.contract c) c message
               (JStr (IDLE c)) (JBool false) (JBool false)
               (Contract.loaded c text) (Contract.loaded c text)
               (Contract.loaded c text) (Contract.loaded c text) t Htypes Hget).
    + cbn [fst snd trace]. split; [reflexivity|].
      unfold responses. rewrite omap_app. cbn. apply last_snoc.
    + reflexivity.
    + unfold perform, Contract.contract. now rewrite Hr.
    + unfold perform, Contract.contract. now rewrite Hp.
Qed.

Lemma get_status_report_witness :
  let earlier :=
    [message_of_type (JStr "PAUSE_READING"); message_of_type (JStr "STOP_READING");
     message_of_type (JStr "TOGGLE_READING"); JNull] in
  let handled :=
    run (handleMessages (Collaborators0:=Contract.contract aura) aura earlier ;;
         handleMessage (Collaborators0:=Contract.contract aura) aura
           (message_of_type (JStr "GET_STATUS")))
        (Contract.loaded aura "Once upon a time") in
  NoDup (message_types aura) /\
  NoDup (statuses aura) /\
  Forall (not_start aura) earlier /\
  fst handled = Ok tt /\
  last (responses (trace (snd handled)))
    = Some (status_report (JStr "idle") (JBool false) (JBool false)).
Proof.
  cbv zeta.
  pose proof (proj2 aura_enumerations) as Htypes.
  pose proof (proj1 aura_enumerations) as Hstatuses.
  assert (Hall : Forall (not_start aura)
            [message_of_type (JStr "PAUSE_READING");
             message_of_type (JStr "STOP_READING");
             message_of_type (JStr "TOGGLE_READING"); JNull]).
  { repeat constructor; intros Heq; vm_compute in Heq; discriminate Heq. }
  refine (conj Htypes (conj Hstatuses (conj Hall _))).
  apply (proj2 (get_status_report aura Htypes Hstatuses) "Once upon a time" _
           (message_of_type (JStr "GET_STATUS")) Hall).
  reflexivity.
Defined.

Lemma empty_content_fails_witness :
  let blank := String (ascii_of_nat 32) (String (ascii_of_nat 10) "") in
  let message := message_of_type (JStr "START_READING") in
  let handled :=
    run (handleMessage (Collaborators0:=Contract.contract aura) aura message)
        (Contract.loaded aura blank) in
  whitespace_only blank /\
  (OverlayCreate ∉ calls (trace (snd handled))) /\
  (OverlayShow ∉ calls (trace (snd handled))) /\
  exists e, responses (trace (snd handled)) = [failure (JS.message e)].
Proof.
  cbv zeta.
  assert (Hws : whitespace_only (String (ascii_of_nat 32) (String (ascii_of_nat 10) ""))).
  { apply ws_one; [reflexivity|]. apply ws_one; [reflexivity|]. apply ws_empty. }
  split; [exact Hws|].
  destruct (empty_content_fails (Collaborators0:=Contract.contract aura) aura
              (message_of_type (JStr "START_READING"))
              (String (ascii_of_nat 32) (String (ascii_of_nat 10) ""))
              (Contract.loaded aura (String (ascii_of_nat 32) (String (ascii_of_nat 10) "")))
              (Contract.loaded aura (String (ascii_of_nat 32) (String (ascii_of_nat 10) "")))
              eq_refl Hws eq_refl)
    as (e & _ & Hcreate & Hshow & _ & Hresponse & _).
  refine (conj Hcreate (conj Hshow _)).
  exists e. exact Hresponse.
Defined.

Lemma second_start_reuses_overlay_witness :
  let first :=
    run (Content.startReading (Collaborators0:=Contract.contract aura) aura)
        (Contract.loaded aura "Once upon a time") in
  let second :=
    run (Content.startReading (Collaborators0:=Contract.contract aura) aura)
        (world (snd first)) in
  fst first = Ok tt /\
  OverlayCreate ∈ calls (trace (snd first)) /\
  (OverlayCreate ∉ calls (trace (snd second))) /\
  calls (trace (snd second)) =
    [ExtractPageContent; OverlayExists; OverlayShow;
     OverlayUpdateStatus "idle"; OverlayUpdateButtons "idle";
     ReaderStartReading (JStr "Once upon a time")].
Proof.
  cbv zeta.
  set (first := run (Content.startReading (Collaborators0:=Contract.contract aura) aura)
                    (Contract.loaded aura "Once upon a time")).
  assert (Hfirst : first = (Ok tt, State (world (snd first)) (trace (snd first)))).
  { vm_compute. reflexivity. }
  split; [vm_compute; reflexivity|].
  assert (Hcalls1 : calls (trace (snd first)) =
            [ExtractPageContent; OverlayExists; OverlayCreate; OverlayShow;
             OverlayUpdateStatus "idle"; OverlayUpdateButtons "idle";
             ReaderStartReading (JStr "Once upon a time")]).
  { vm_compute. reflexivity. }
  split; [rewrite Hcalls1; present|].
  destruct (second_start_reuses_overlay (Collaborators0:=Contract.contract aura) aura
              (Contract.loaded aura "Once upon a time")
              (world (snd first)) (world (snd first)) (world (snd first))
              (trace (snd first)) (JStr "Once upon a time") (JBool true)
              Hfirst eq_refl eq_refl eq_refl eq_refl)
    as (_ & _ & Hcreate & Hcalls).
  split; [exact Hcreate|]. apply Hcalls. vm_compute. reflexivity.
Defined.

(** ** The polling timer *)

Section Timer.

Import Polling.

Lemma script_opened (t0 : N) : script (opened t0) = polling t0 0 0.
Proof.
  unfold script, opened, polling, call_direct, setInterval,
    addEventListener_beforeunload. cbn.
  f_equal. lia.
Qed.

Lemma firing_singleton (t : N) (h : nat) (tm : timer) :
  firing t {[ h := tm ]} =
    if is_due t tm then [TimerFired (callback_of tm) t] else [].
Proof.
  unfold firing. rewrite map_to_list_singleton. cbn.
  now destruct (is_due t tm).
Qed.

Lemma firing_empty (t : N) : firing t ∅ = [].
Proof. unfold firing. now rewrite map_to_list_empty. Qed.

Lemma tick_wait (t0 : N) (k : nat) (r : N) :
  (r + 1 < 1000)%N -> tick (polling t0 k r) = polling t0 k (r + 1).
Proof.
  intros Hr. unfold tick, polling. cbn [now timers next_handle beforeunload log].
  rewrite firing_singleton, map_fmap_singleton.
  unfold reschedule, is_due. cbn [due].
  destruct (N.eqb_spec (t0 + 1000 * (N.of_nat k + 1)) (t0 + 1000 * N.of_nat k + r + 1))%N
    as [Heq|_]; [lia|].
  rewrite app_nil_r. f_equal. lia.
Qed.

Lemma tick_fire (t0 : N) (k : nat) :
  tick (polling t0 k 999) = polling t0 (S k) 0.
Proof.
  unfold tick, polling. cbn [now timers next_handle beforeunload log].
  rewrite firing_singleton, map_fmap_singleton.
  unfold reschedule, is_due. cbn [due period callback_of].
  destruct (N.eqb_spec (t0 + 1000 * (N.of_nat k + 1)) (t0 + 1000 * N.of_nat k + 999 + 1))%N
    as [_|Hne]; [|lia].
  f_equal.
  - lia.
  - do 2 f_equal. lia.
  - replace (S k) with (k + 1)%nat by lia.
    rewrite seq_app, map_app. cbn. do 4 f_equal. lia.
Qed.

Lemma steps_app (w : window) (l1 l2 : list step) :
  steps w (l1 ++ l2) = steps (steps w l1) l2.
Proof. unfold steps. apply foldl_app. Qed.

Lemma ticks_wait (t0 : N) (k r : nat) (r0 : N) :
  (r0 + N.of_nat r < 1000)%N ->
  steps (polling t0 k r0) (repeat Tick r) = polling t0 k (r0 + N.of_nat r).
Proof.
  revert r0. induction r as [|r IH]; intros r0 Hr.
  - cbn. f_equal. lia.
  - cbn [repeat]. unfold steps. cbn [foldl do_step]. fold (steps (tick (polling t0 k r0)) (repeat Tick r)).
    rewrite tick_wait by lia. rewrite IH by lia. f_equal. lia.
Qed.

Lemma ticks_rounds (t0 : N) (k : nat) :
  steps (polling t0 0 0) (repeat Tick (1000 * k)) = polling t0 k 0.
Proof.
  induction k as [|k IH].
  - reflexivity.
  - replace (1000 * S k)%nat with (1000 * k + (999 + 1))%nat by lia.
    rewrite !repeat_app, !steps_app, IH.
    rewrite ticks_wait by lia.
    change (repeat Tick 1) with [Tick]. unfold steps. cbn [foldl do_step].
    apply tick_fire.
Qed.

Lemma timer_calls_fired (g : nat -> N) (l : list nat) :
  timer_calls (map (fun i => TimerFired RefreshStatus (g i)) l) = map g l.
Proof. induction l as [|i l IH]; [reflexivity|]. cbn. now rewrite <- IH. Qed.

(** Every window the script can reach is guarded. *)
Lemma guarded_polling (t0 : N) (k : nat) (r : N) : guarded (polling t0 k r).
Proof. split; [reflexivity|]. right. now eexists. Qed.

Lemma listeners_log (ls : list listener) (w : window) :
  log (foldl run_listener w ls) = log w /\
  beforeunload (foldl run_listener w ls) = beforeunload w.
Proof.
  revert w. induction ls as [|[h] ls IH]; intros w; [now split|].
  cbn [foldl]. destruct (IH (run_listener w (ClearInterval h))) as [-> ->].
  now split.
Qed.

Lemma unload_guarded (w : window) :
  guarded w ->
  timers (unload w) = ∅ /\ guarded (unload w) /\
  timer_calls (log (unload w)) = timer_calls (log w).
Proof.
  intros [Hl Ht]. unfold unload. rewrite Hl. cbn [foldl].
  unfold run_listener, clearInterval.
  assert (Hempty : delete 1%nat (timers w) = ∅).
  { destruct Ht as [->|[tm ->]]; [apply delete_empty|apply delete_singleton_eq]. }
  cbn [now timers next_handle beforeunload log]. rewrite Hempty.
  split; [reflexivity|]. split.
  - split; [reflexivity|now left].
  - unfold timer_calls. rewrite omap_app. cbn. apply app_nil_r.
Qed.

Lemma tick_guarded (w : window) : guarded w -> guarded (tick w).
Proof.
  intros [Hl Ht]. split; [exact Hl|]. unfold tick. cbn [timers].
  destruct Ht as [->|[tm ->]].
  - left. apply fmap_empty.
  - right. rewrite map_fmap_singleton. now eexists.
Qed.

Lemma steps_guarded (l : list step) (w : window) : guarded w -> guarded (steps w l).
Proof.
  revert w. induction l as [|[|] l IH]; intros w Hw; [exact Hw| |];
    unfold steps; cbn [foldl do_step]; apply IH.
  - now apply tick_guarded.
  - now apply unload_guarded.
Qed.

(** Once no timer is set, nothing calls [refreshStatus] any more. *)
Lemma steps_cleared (l : list step) (w : window) :
  guarded w -> timers w = ∅ ->
  timer_calls (log (steps w l)) = timer_calls (log w).
Proof.
  revert w. induction l as [|[|] l IH]; intros w Hw Ht; [reflexivity| |];
    unfold steps; cbn [foldl do_step].
  - fold (steps (tick w) l). rewrite IH.
    + unfold tick. cbn [log]. rewrite Ht, firing_empty. now rewrite app_nil_r.
    + now apply tick_guarded.
    + unfold tick. cbn [timers]. rewrite Ht. apply fmap_empty.
  - fold (steps (unload w) l).
    destruct (unload_guarded w Hw) as (Hempty & Hg & Hcalls).
    now rewrite IH.
Qed.

End Timer.

(** C8. The script sets one timer that calls [refreshStatus] every
    1000 ms from the moment the popup opened, and from the [beforeunload]
    event on the timer never calls it again. *)
Theorem polling_timer (t0 : N) :
  (forall k r : nat,
     (r < 1000)%nat ->
     Polling.timer_calls
       (Polling.log (Polling.steps (Polling.script (Polling.opened t0))
                       (repeat Polling.Tick (1000 * k + r))))
       = map (fun i => (t0 + 1000 * N.of_nat i)%N) (seq 1 k)) /\
  (forall before after : list Polling.step,
     Polling.timer_calls
       (Polling.log (Polling.steps (Polling.script (Polling.opened t0))
                       (before ++ Polling.BeforeUnload :: after)))
       = Polling.timer_calls
           (Polling.log (Polling.steps (Polling.script (Polling.opened t0)) before))).
Proof.
  split.
  - intros k r Hr.
    rewrite script_opened, repeat_app, steps_app, ticks_rounds.
    rewrite ticks_wait by lia.
    unfold Polling.polling. cbn [Polling.log Polling.timer_calls omap].
    apply timer_calls_fired.
  - intros before after.
    rewrite script_opened, steps_app.
    pose proof (steps_guarded before _ (guarded_polling t0 0 0)) as Hg.
    set (w := Polling.steps (Polling.polling t0 0 0) before) in *.
    unfold Polling.steps at 1. cbn [foldl Polling.do_step].
    fold (Polling.steps (Polling.unload w) after).
    destruct (unload_guarded w Hg) as (Hempty & Hg' & Hcalls).
    now rewrite steps_cleared.
Qed.

Lemma polling_timer_witness :
  (5 < 1000)%nat /\
  Polling.timer_calls
    (Polling.log (Polling.steps (Polling.script (Polling.opened 250))
                    (repeat Polling.Tick (1000 * 3 + 5))))
    = [1250; 2250; 3250]%N.
Proof.
  split; [lia|].
  exact (proj1 (polling_timer 250) 3%nat 5%nat ltac:(lia)).
Defined.

(** * Further properties of the popup *)

Section PopupRuns.

Context (c : constants).

(** Showing a status whose [switch] case is not the default one rewrites
    everything the user sees. *)
Lemma show_overwrites (s : string) (p q : popup) :
  Wiring.named_case c s = true ->
  display (snd ((updateStatus c (JStr s) ;; updateButtons c (JStr s)) p))
  = display (snd ((updateStatus c (JStr s) ;; updateButtons c (JStr s)) q)).
Proof.
  unfold Wiring.named_case. intros Hcase.
  unfold bind. rewrite !updateStatus_string.
  unfold updateButtons, modify. cbn [fst snd].
  destruct (is_str (JStr s) (READING c)); [reflexivity|].
  destruct (is_str (JStr s) (PAUSED c)); [reflexivity|].
  cbn [orb] in Hcase. rewrite Hcase. reflexivity.
Qed.

Lemma show_keeps_console (s : string) (p : popup) :
  console (snd ((updateStatus c (JStr s) ;; updateButtons c (JStr s)) p)) = console p.
Proof.
  unfold bind. rewrite updateStatus_string.
  now rewrite (proj2 (proj2 (updateButtons_keeps c (JStr s) _))).
Qed.

Lemma named_reading : Wiring.named_case c (READING c) = true.
Proof. unfold Wiring.named_case. now rewrite is_str_same. Qed.

Lemma named_paused : Wiring.named_case c (PAUSED c) = true.
Proof. unfold Wiring.named_case. now rewrite is_str_same, orb_true_r. Qed.

Lemma named_stopped : Wiring.named_case c (STOPPED c) = true.
Proof. unfold Wiring.named_case. now rewrite is_str_same, !orb_true_r. Qed.

Lemma named_error : Wiring.named_case c (ERROR c) = true.
Proof. unfold Wiring.named_case. now rewrite is_str_same, !orb_true_r. Qed.

(** The six labels. *)
Lemma statusMessages_table :
  NoDup (statuses c) ->
  statusMessages c !! IDLE c = Some "Ready to read" /\
  statusMessages c !! READING c = Some "Reading…" /\
  statusMessages c !! PAUSED c = Some "Paused" /\
  statusMessages c !! STOPPED c = Some "Stopped" /\
  statusMessages c !! COMPLETE c = Some "Reading complete" /\
  statusMessages c !! ERROR c = Some "Error reading page".
Proof.
  intros Hd. apply statuses_distinct in Hd. unfold statusMessages.
  repeat split;
    rewrite ?lookup_insert_ne by (intuition congruence); apply lookup_insert_eq.
Qed.

End PopupRuns.

Section PopupSuccess.

Context (c : constants) (ch : chrome) (p : popup).

(** A handler whose tab query and send both succeed. *)
Lemma pauseReading_sent (t : tab) (rest : list tab) (response : jsval) :
  tabs_query ch = Ok (t :: rest) ->
  tabs_sendMessage ch (id t) (JObj {[ "type" := JStr (PAUSE_READING c) ]})
    = (None, response) ->
  pauseReading c ch p
  = (updateStatus c (JStr (PAUSED c)) ;; updateButtons c (JStr (PAUSED c))) p.
Proof.
  intros Hq Hs. unfold_handler. rewrite Hq. cbn [head]. rewrite Hs.
  now rewrite updateStatus_string.
Qed.

Lemma resumeReading_sent (t : tab) (rest : list tab) (response : jsval) :
  tabs_query ch = Ok (t :: rest) ->
  tabs_sendMessage ch (id t) (JObj {[ "type" := JStr (RESUME_READING c) ]})
    = (None, response) ->
  resumeReading c ch p
  = (updateStatus c (JStr (READING c)) ;; updateButtons c (JStr (READING c))) p.
Proof.
  intros Hq Hs. unfold_handler. rewrite Hq. cbn [head]. rewrite Hs.
  now rewrite updateStatus_string.
Qed.

Lemma stopReading_sent (t : tab) (rest : list tab) (response : jsval) :
  tabs_query ch = Ok (t :: rest) ->
  tabs_sendMessage ch (id t) (JObj {[ "type" := JStr (STOP_READING c) ]})
    = (None, response) ->
  stopReading c ch p
  = (updateStatus c (JStr (STOPPED c)) ;; updateButtons c (JStr (STOPPED c))) p.
Proof.
  intros Hq Hs. unfold_handler. rewrite Hq. cbn [head]. rewrite Hs.
  now rewrite updateStatus_string.
Qed.

Lemma startReading_sent (t : tab) (rest : list tab) (response : jsval) :
  tabs_query ch = Ok (t :: rest) ->
  tabs_sendMessage ch (id t) (JObj {[ "type" := JStr (START_READING c) ]})
    = (None, response) ->
  Popup.startReading c ch p
  = (updateStatus c (JStr (READING c)) ;; updateButtons c (JStr (READING c)))
      (snd (Wiring.initialise c p)).
Proof.
  intros Hq Hs. rewrite startReading_unfold. unfold Wiring.initialise.
  destruct ((updateStatus c (JStr (IDLE c)) ;; updateButtons c (JStr (IDLE c))) p)
    as [r p1].
  now rewrite Hq, Hs.
Qed.

(** What is on display once a string status has been shown. *)
Lemma shown (s label : string) (v : controls_view) (q : popup) :
  statusMessages c !! s = Some label ->
  label <> "" ->
  view (snd (updateButtons c (JStr s) q)) = v ->
  let r := snd ((updateStatus c (JStr s) ;; updateButtons c (JStr s)) q) in
  currentStatus r = JStr s /\
  statusElement_textContent r = label /\
  view r = v /\
  console r = console q.
Proof.
  intros Hlabel Hne Hview r. subst r.
  refine (conj (proj2 (show_string_status c s q)) (conj _ (conj _ _))).
  - unfold bind. rewrite updateStatus_string.
    rewrite (proj1 (proj2 (updateButtons_keeps c (JStr s) _))).
    cbn. unfold literal_lookup. rewrite Hlabel. cbn.
    apply String.eqb_neq in Hne. now rewrite Hne.
  - unfold bind. rewrite updateStatus_string. cbn [snd].
    rewrite <- Hview. unfold updateButtons, modify. cbn [snd].
    destruct (is_str (JStr s) (READING c)); [reflexivity|].
    destruct (is_str (JStr s) (PAUSED c)); [reflexivity|].
    now destruct (is_str (JStr s) (COMPLETE c) || is_str (JStr s) (STOPPED c)
                  || is_str (JStr s) (ERROR c)).
  - apply show_keeps_console.
Qed.

End PopupSuccess.

Section PopupTable.

Context (c : constants) (Hd : NoDup (statuses c)).

Lemma buttons_view (q : popup) :
  let after s := view (snd (updateButtons c (JStr s) q)) in
  after (IDLE c) = View true false false false true /\
  after (READING c) = View false true false true false /\
  after (PAUSED c) = View false false true true false /\
  after (STOPPED c) = View true false false false false /\
  after (COMPLETE c) = View true false false false false /\
  after (ERROR c) = View true false false false false.
Proof.
  pose proof (statuses_distinct c Hd) as D. cbv zeta.
  unfold updateButtons, modify. cbn [snd].
  refine (conj _ (conj _ (conj _ (conj _ (conj _ _))))).
  - rewrite !(is_str_other (IDLE c)) by (intuition congruence). reflexivity.
  - now rewrite is_str_same.
  - rewrite (is_str_other (PAUSED c) (READING c)) by (intuition congruence).
    now rewrite is_str_same.
  - rewrite (is_str_other (STOPPED c) (READING c)),
      (is_str_other (STOPPED c) (PAUSED c)) by (intuition congruence).
    now rewrite is_str_same, orb_true_r.
  - rewrite (is_str_other (COMPLETE c) (READING c)),
      (is_str_other (COMPLETE c) (PAUSED c)) by (intuition congruence).
    now rewrite is_str_same.
  - rewrite (is_str_other (ERROR c) (READING c)),
      (is_str_other (ERROR c) (PAUSED c)) by (intuition congruence).
    now rewrite is_str_same, !orb_true_r.
Qed.

End PopupTable.

(** X1. [updateStatus] shows the label of each of the six statuses:
    'Ready to read', 'Reading…', 'Paused', 'Stopped', 'Reading complete' and
    'Error reading page'. *)
Theorem status_labels (c : constants) (p : popup) :
  NoDup (statuses c) ->
  let label s := statusElement_textContent (snd (updateStatus c (JStr s) p)) in
  label (IDLE c) = "Ready to read" /\
  label (READING c) = "Reading…" /\
  label (PAUSED c) = "Paused" /\
  label (STOPPED c) = "Stopped" /\
  label (COMPLETE c) = "Reading complete" /\
  label (ERROR c) = "Error reading page".
Proof.
  intros Hd label. subst label.
  destruct (statusMessages_table c Hd) as (Hi & Hr & Hp & Hs & Hc & He).
  rewrite !updateStatus_string. cbn [snd statusElement_textContent set_textContent].
  unfold literal_lookup. rewrite Hi, Hr, Hp, Hs, Hc, He. now cbn.
Qed.

Lemma status_labels_witness :
  NoDup (statuses aura) /\
  statusElement_textContent (snd (updateStatus aura (JStr "paused") (untouched aura)))
  = "Paused".
Proof.
  split; [exact (proj1 aura_enumerations)|].
  exact (proj1 (proj2 (proj2
           (status_labels aura (untouched aura) (proj1 aura_enumerations))))).
Defined.

(** X2. None of the popup's five handlers ever rejects: whatever the
    platform answers, and whatever the response holds, each returns. *)
Theorem popup_handlers_never_reject (c : constants) (ch : chrome) (p : popup) :
  fst (Popup.startReading c ch p) = Ok tt /\
  fst (pauseReading c ch p) = Ok tt /\
  fst (resumeReading c ch p) = Ok tt /\
  fst (stopReading c ch p) = Ok tt /\
  fst (refreshStatus c ch p) = Ok tt.
Proof.
  refine (conj _ (conj _ (conj _ (conj _ _)))).
  - rewrite startReading_unfold.
    destruct ((updateStatus c (JStr (IDLE c)) ;; updateButtons c (JStr (IDLE c))) p)
      as [r p1].
    destruct (tabs_query ch) as [[|t rest]|e];
      try apply show_string_status.
    destruct (tabs_sendMessage ch (id t) _) as [[err|] response];
      apply show_string_status.
  - unfold_handler. destruct (tabs_query ch) as [[|t rest]|e]; try reflexivity.
    cbn [head]. destruct (tabs_sendMessage ch (id t) _) as [[err|] response];
      reflexivity.
  - unfold_handler. destruct (tabs_query ch) as [[|t rest]|e]; try reflexivity.
    cbn [head]. destruct (tabs_sendMessage ch (id t) _) as [[err|] response];
      reflexivity.
  - unfold_handler. destruct (tabs_query ch) as [[|t rest]|e]; try reflexivity.
    cbn [head]. destruct (tabs_sendMessage ch (id t) _) as [[err|] response];
      reflexivity.
  - unfold_handler. destruct (tabs_query ch) as [[|t rest]|e]; try reflexivity.
    cbn [head]. destruct (tabs_sendMessage ch (id t) _) as [[err|] response];
      try reflexivity.
    destruct (truthy response); [|reflexivity].
    destruct (get_prop response "status") as [status|e]; [|reflexivity].
    destruct (truthy status); [|reflexivity].
    unfold updateStatus, bind, lift, modify.
    destruct (to_property_key status); reflexivity.
Qed.

(** X3. When a tab is active and the send succeeds, [startReading] ends
    with READING on display, label 'Reading…', pause and stop enabled, and
    nothing on the console, whatever the response says (an error object
    included). *)
Theorem startReading_shows_reading
    (c : constants) (ch : chrome) (p : popup)
    (t : tab) (rest : list tab) (response : jsval) :
  NoDup (statuses c) ->
  tabs_query ch = Ok (t :: rest) ->
  tabs_sendMessage ch (id t) (JObj {[ "type" := JStr (START_READING c) ]})
    = (None, response) ->
  let q := snd (Popup.startReading c ch p) in
  currentStatus q = JStr (READING c) /\
  statusElement_textContent q = "Reading…" /\
  view q = View false true false true false /\
  console q = console p.
Proof.
  intros Hd Hq Hs q. subst q.
  rewrite (startReading_sent c ch p t rest response Hq Hs).
  destruct (shown c (READING c) "Reading…" (View false true false true false)
              (snd (Wiring.initialise c p))) as (H1 & H2 & H3 & H4).
  - apply (statusMessages_table c Hd).
  - discriminate.
  - apply (buttons_view c Hd).
  - refine (conj H1 (conj H2 (conj H3 _))). rewrite H4.
    apply show_keeps_console.
Qed.

Lemma startReading_shows_reading_witness :
  let ch := answering (JObj {[ "error" := JStr "No readable content found on this page" ]}) in
  let q := snd (Popup.startReading aura ch (untouched aura)) in
  NoDup (statuses aura) /\
  tabs_query ch = Ok [Tab 7] /\
  currentStatus q = JStr "reading" /\
  statusElement_textContent q = "Reading…" /\
  view q = View false true false true false /\
  console q = [].
Proof.
  cbv zeta. split; [exact (proj1 aura_enumerations)|]. split; [reflexivity|].
  exact (startReading_shows_reading aura
           (answering (JObj {[ "error" := JStr "No readable content found on this page" ]}))
           (untouched aura) (Tab 7) [] _ (proj1 aura_enumerations) eq_refl eq_refl).
Defined.

(** X4. What is on display after [startReading] does not depend on what
    was on display before: every field is rewritten, on the success path
    and on the failure path alike. *)
Theorem startReading_overwrites_display (c : constants) (ch : chrome) (p q : popup) :
  display (snd (Popup.startReading c ch p)) = display (snd (Popup.startReading c ch q)).
Proof.
  rewrite !startReading_unfold.
  destruct ((updateStatus c (JStr (IDLE c)) ;; updateButtons c (JStr (IDLE c))) p)
    as [r1 p1].
  destruct ((updateStatus c (JStr (IDLE c)) ;; updateButtons c (JStr (IDLE c))) q)
    as [r2 q1].
  destruct (tabs_query ch) as [[|t rest]|e];
    try (apply show_overwrites, named_error).
  destruct (tabs_sendMessage ch (id t) _) as [[err|] response].
  - apply show_overwrites, named_error.
  - apply show_overwrites, named_reading.
Qed.

(** X5. When a tab is active and the send succeeds, [pauseReading] shows
    PAUSED with resume and stop enabled, [resumeReading] shows READING with
    pause and stop enabled, and [stopReading] shows STOPPED with start
    alone enabled; none of them writes to the console. *)
Theorem controls_show_target
    (c : constants) (ch : chrome) (p : popup) (t : tab) (rest : list tab) :
  NoDup (statuses c) ->
  tabs_query ch = Ok (t :: rest) ->
  (forall response,
     tabs_sendMessage ch (id t) (JObj {[ "type" := JStr (PAUSE_READING c) ]})
       = (None, response) ->
     let q := snd (pauseReading c ch p) in
     currentStatus q = JStr (PAUSED c) /\ statusElement_textContent q = "Paused" /\
     view q = View false false true true false /\ console q = console p) /\
  (forall response,
     tabs_sendMessage ch (id t) (JObj {[ "type" := JStr (RESUME_READING c) ]})
       = (None, response) ->
     let q := snd (resumeReading c ch p) in
     currentStatus q = JStr (READING c) /\ statusElement_textContent q = "Reading…" /\
     view q = View false true false true false /\ console q = console p) /\
  (forall response,
     tabs_sendMessage ch (id t) (JObj {[ "type" := JStr (STOP_READING c) ]})
       = (None, response) ->
     let q := snd (stopReading c ch p) in
     currentStatus q = JStr (STOPPED c) /\ statusElement_textContent q = "Stopped" /\
     view q = View true false false false false /\ console q = console p).
Proof.
  intros Hd Hq. refine (conj _ (conj _ _)); intros response Hs q; subst q.
  - rewrite (pauseReading_sent c ch p t rest response Hq Hs).
    apply shown; [apply (statusMessages_table c Hd)|discriminate
                 |apply (buttons_view c Hd)].
  - rewrite (resumeReading_sent c ch p t rest response Hq Hs).
    apply shown; [apply (statusMessages_table c Hd)|discriminate
                 |apply (buttons_view c Hd)].
  - rewrite (stopReading_sent c ch p t rest response Hq Hs).
    apply shown; [apply (statusMessages_table c Hd)|discriminate
                 |apply (buttons_view c Hd)].
Qed.

Lemma controls_show_target_witness :
  let q := snd (stopReading aura (answering success) (untouched aura)) in
  NoDup (statuses aura) /\
  tabs_query (answering success) = Ok [Tab 7] /\
  currentStatus q = JStr "stopped" /\
  statusElement_textContent q = "Stopped" /\
  view q = View true false false false false /\
  console q = [].
Proof.
  cbv zeta. split; [exact (proj1 aura_enumerations)|]. split; [reflexivity|].
  exact (proj2 (proj2
           (controls_show_target aura (answering success) (untouched aura) (Tab 7) []
              (proj1 aura_enumerations) eq_refl)) success eq_refl).
Defined.

(** X6. Pausing and then resuming, both sent successfully, leaves on
    display exactly what a successful [startReading] leaves. *)
Theorem pause_resume_round_trip
    (c : constants) (ch : chrome) (p p' : popup) (t : tab) (rest : list tab)
    (r1 r2 r3 : jsval) :
  tabs_query ch = Ok (t :: rest) ->
  tabs_sendMessage ch (id t) (JObj {[ "type" := JStr (START_READING c) ]}) = (None, r1) ->
  tabs_sendMessage ch (id t) (JObj {[ "type" := JStr (PAUSE_READING c) ]}) = (None, r2) ->
  tabs_sendMessage ch (id t) (JObj {[ "type" := JStr (RESUME_READING c) ]}) = (None, r3) ->
  display (snd (resumeReading c ch (snd (pauseReading c ch p))))
  = display (snd (Popup.startReading c ch p')).
Proof.
  intros Hq H1 H2 H3.
  rewrite (resumeReading_sent c ch _ t rest r3 Hq H3).
  rewrite (startReading_sent c ch p' t rest r1 Hq H1).
  apply show_overwrites, named_reading.
Qed.

Lemma pause_resume_round_trip_witness :
  let ch := answering success in
  tabs_query ch = Ok [Tab 7] /\
  display (snd (resumeReading aura ch (snd (pauseReading aura ch (untouched aura)))))
  = display (snd (Popup.startReading aura ch (untouched aura))).
Proof.
  cbv zeta. split; [reflexivity|].
  exact (pause_resume_round_trip aura (answering success) (untouched aura)
           (untouched aura) (Tab 7) [] success success success
           eq_refl eq_refl eq_refl eq_refl).
Defined.

(** X7. A response to GET_STATUS that has no truthy [status] (a
    [{success: true}] or [{error: ...}] object, an empty status) changes
    nothing in the popup. *)
Theorem refreshStatus_ignores_statusless
    (c : constants) (ch : chrome) (p : popup)
    (t : tab) (rest : list tab) (response status : jsval) :
  tabs_query ch = Ok (t :: rest) ->
  tabs_sendMessage ch (id t) (JObj {[ "type" := JStr (GET_STATUS c) ]})
    = (None, response) ->
  get_prop response "status" = Ok status ->
  truthy status = false ->
  refreshStatus c ch p = (Ok tt, p).
Proof.
  intros Hq Hs Hget Hfalsy. unfold_handler. rewrite Hq. cbn [head]. rewrite Hs.
  destruct (truthy response); [|reflexivity].
  now rewrite Hget, Hfalsy.
Qed.

Lemma refreshStatus_ignores_statusless_witness :
  let p := snd (Popup.startReading aura (answering success) (untouched aura)) in
  get_prop (failure "Unknown message type") "status" = Ok JUndefined /\
  refreshStatus aura (answering (failure "Unknown message type")) p = (Ok tt, p).
Proof.
  cbv zeta. split; [reflexivity|].
  exact (refreshStatus_ignores_statusless aura
           (answering (failure "Unknown message type")) _ (Tab 7) []
           (failure "Unknown message type") JUndefined
           eq_refl eq_refl eq_refl eq_refl).
Defined.

(** X8. Polling is idempotent: against the same platform answer, a second
    [refreshStatus] leaves the popup exactly as the first one left it. *)
Theorem refreshStatus_idempotent (c : constants) (ch : chrome) (p : popup) :
  snd (refreshStatus c ch (snd (refreshStatus c ch p))) = snd (refreshStatus c ch p).
Proof.
  unfold_handler.
  destruct (tabs_query ch) as [[|t rest]|e]; cbn [head]; try reflexivity.
  - destruct (tabs_sendMessage ch (id t) _) as [[err|] response].
    + rewrite !updateStatus_string. unfold updateButtons, modify. cbn [fst snd].
      destruct (is_str (JStr (IDLE c)) (READING c)); [reflexivity|].
      destruct (is_str (JStr (IDLE c)) (PAUSED c)); [reflexivity|].
      now destruct (is_str (JStr (IDLE c)) (COMPLETE c)
                    || is_str (JStr (IDLE c)) (STOPPED c)
                    || is_str (JStr (IDLE c)) (ERROR c)).
    + destruct (truthy response); [|reflexivity].
      destruct (get_prop response "status") as [status|e].
      * destruct (truthy status); [|reflexivity].
        unfold updateStatus, bind, lift, modify.
        destruct (to_property_key status) as [key|e]; cbn [fst snd].
        -- unfold updateButtons, modify. cbn [fst snd].
           destruct (is_str status (READING c)); [reflexivity|].
           destruct (is_str status (PAUSED c)); [reflexivity|].
           now destruct (is_str status (COMPLETE c) || is_str status (STOPPED c)
                         || is_str status (ERROR c)).
        -- unfold updateButtons, modify. cbn [fst snd].
           destruct (is_str (JStr (IDLE c)) (READING c)); [reflexivity|].
           destruct (is_str (JStr (IDLE c)) (PAUSED c)); [reflexivity|].
           now destruct (is_str (JStr (IDLE c)) (COMPLETE c)
                         || is_str (JStr (IDLE c)) (STOPPED c)
                         || is_str (JStr (IDLE c)) (ERROR c)).
      * rewrite !updateStatus_string. unfold updateButtons, modify. cbn [fst snd].
        destruct (is_str (JStr (IDLE c)) (READING c)); [reflexivity|].
        destruct (is_str (JStr (IDLE c)) (PAUSED c)); [reflexivity|].
        now destruct (is_str (JStr (IDLE c)) (COMPLETE c)
                      || is_str (JStr (IDLE c)) (STOPPED c)
                      || is_str (JStr (IDLE c)) (ERROR c)).
  - rewrite !updateStatus_string. unfold updateButtons, modify. cbn [fst snd].
    destruct (is_str (JStr (IDLE c)) (READING c)); [reflexivity|].
    destruct (is_str (JStr (IDLE c)) (PAUSED c)); [reflexivity|].
    now destruct (is_str (JStr (IDLE c)) (COMPLETE c)
                  || is_str (JStr (IDLE c)) (STOPPED c)
                  || is_str (JStr (IDLE c)) (ERROR c)).
Qed.

(** X9. When the script has run its two opening statements the popup
    shows IDLE, 'Ready to read', start enabled and the control row hidden,
    whatever the document held before. *)
Theorem initial_display (c : constants) (p : popup) :
  NoDup (statuses c) ->
  let q := snd (Wiring.initialise c p) in
  fst (Wiring.initialise c p) = Ok tt /\
  currentStatus q = JStr (IDLE c) /\
  statusElement_textContent q = "Ready to read" /\
  view q = View true false false false true /\
  console q = console p.
Proof.
  intros Hd q. subst q. unfold Wiring.initialise.
  split; [apply show_string_status|].
  apply shown; [apply (statusMessages_table c Hd)|discriminate
               |apply (buttons_view c Hd)].
Qed.

Lemma initial_display_witness :
  let q := snd (Wiring.initialise aura (untouched aura)) in
  NoDup (statuses aura) /\
  currentStatus q = JStr "idle" /\
  statusElement_textContent q = "Ready to read" /\
  view q = View true false false false true.
Proof.
  cbv zeta. split; [exact (proj1 aura_enumerations)|].
  destruct (initial_display aura (untouched aura) (proj1 aura_enumerations))
    as (_ & H1 & H2 & H3 & _).
  exact (conj H1 (conj H2 H3)).
Defined.

(** * Further properties of the coordinator *)

Lemma failure_not_success (m : string) : failure m <> success.
Proof.
  intros Heq. apply (f_equal (fun v => get_prop v "success")) in Heq.
  vm_compute in Heq. discriminate Heq.
Qed.

Lemma failure_alone_not_success (m : string) : [failure m] <> [success].
Proof.
  intros Heq.
  apply (f_equal (fun l => get_prop (default JUndefined (head l)) "success")) in Heq.
  vm_compute in Heq. discriminate Heq.
Qed.

Lemma no_content_false (v : jsval) :
  no_content v = Ok false ->
  exists s, v = JStr s /\ s <> "" /\ ~ whitespace_only s.
Proof.
  unfold no_content. destruct v; cbn; try discriminate.
  - destruct b; discriminate.
  - destruct (negb (z =? 0)); discriminate.
  - destruct (String.eqb_spec s "") as [->|Hne]; cbn; [discriminate|].
    intros Hlen. exists s. split; [reflexivity|]. split; [exact Hne|].
    intros Hws. rewrite (trim_whitespace_only s Hws) in Hlen. discriminate Hlen.
Qed.

(** Deciding that no call in an explicit trace threw. *)
Ltac quiet :=
  let k := fresh "k" in
  let e := fresh "e" in
  intros k e; absent.

(** X10. The START_READING handler answers [{success: true}] only when
    the extractor returned a string that is neither empty nor white space
    and every collaborator call returned; the calls are then extract,
    exists, create if and only if [exists()] was falsy, show,
    updateStatus(IDLE), updateButtons(IDLE) and [pageReader.startReading]
    with the extracted string. *)
Theorem success_means_started
    (c : constants) {W : Type} `{!Collaborators W} (message : jsval) (w : W) :
  get_prop message "type" = Ok (JStr (START_READING c)) ->
  responses (trace (snd (run (handleMessage c message) w))) = [success] ->
  let t := trace (snd (run (handleMessage c message) w)) in
  no_call_threw t /\
  exists (s : string) (w1 : W) (exists_ : jsval),
    perform ExtractPageContent w = (Ok (JStr s), w1) /\
    s <> "" /\
    ~ whitespace_only s /\
    no_content (JStr s) = Ok false /\
    Called OverlayExists (Ok exists_) ∈ t /\
    calls t =
      [ExtractPageContent; OverlayExists]
      ++ (if truthy exists_ then [] else [OverlayCreate])
      ++ [OverlayShow; OverlayUpdateStatus (IDLE c); OverlayUpdateButtons (IDLE c);
          ReaderStartReading (JStr s)].
Proof.
  intros Hget. cbv zeta. unfold run.
  pose proof (handleMessage_cases c message (State w [])) as Hcases.
  rewrite (dispatch_start c message _ Hget) in Hcases. revert Hcases.
  unfold_coordinator.
  destruct (perform ExtractPageContent w) as [[content|e0] w1] eqn:Hextract;
    cbn [fst snd world trace app].
  2: { repeat step; intros ->; cbn; intros Hr;
       now apply failure_alone_not_success in Hr. }
  destruct (no_content content) as [[|]|e0] eqn:Hcontent;
    cbn [fst snd world trace app].
  1, 3: repeat step; intros ->; cbn; intros Hr;
        now apply failure_alone_not_success in Hr.
  destruct (no_content_false content Hcontent) as (s & -> & Hne & Hws).
  destruct (perform OverlayExists w1) as [[exists_|e1] w2];
    cbn [fst snd world trace app].
  2: { repeat step; intros ->; cbn; intros Hr;
       now apply failure_alone_not_success in Hr. }
  destruct (truthy exists_) eqn:Htruthy; cbn [fst snd world trace app negb];
    repeat step; intros ->; cbn; intros Hr;
    try (now apply failure_alone_not_success in Hr);
    (split; [quiet|]);
    exists s, w1, exists_; rewrite Htruthy;
    (split; [reflexivity|split; [exact Hne|split; [exact Hws|
      split; [exact Hcontent|split; [present|reflexivity]]]]]).
Qed.

Lemma success_means_started_witness :
  let message := message_of_type (JStr "START_READING") in
  let t := trace (snd (run (handleMessage (Collaborators0:=Contract.contract aura) aura message)
                         (Contract.loaded aura "Once upon a time"))) in
  get_prop message "type" = Ok (JStr "START_READING") /\
  responses t = [success] /\
  no_call_threw t.
Proof.
  cbv zeta.
  assert (Hr : responses (trace (snd (run
                 (handleMessage (Collaborators0:=Contract.contract aura) aura
                    (message_of_type (JStr "START_READING")))
                 (Contract.loaded aura "Once upon a time")))) = [success]).
  { vm_compute. reflexivity. }
  refine (conj eq_refl (conj Hr _)).
  exact (proj1 (success_means_started (Collaborators0:=Contract.contract aura) aura
                  (message_of_type (JStr "START_READING"))
                  (Contract.loaded aura "Once upon a time") eq_refl Hr)).
Defined.

Section Controls.

Context (c : constants) {W : Type} `{!Collaborators W}.

Lemma control_messages (message : jsval) (w : W) :
  NoDup (message_types c) ->
  (get_prop message "type" = Ok (JStr (PAUSE_READING c)) ->
   run (handleMessage c message) w = Wiring.answered ReaderPauseReading w) /\
  (get_prop message "type" = Ok (JStr (RESUME_READING c)) ->
   run (handleMessage c message) w = Wiring.answered ReaderResumeReading w) /\
  (get_prop message "type" = Ok (JStr (STOP_READING c)) ->
   run (handleMessage c message) w = Wiring.answered ReaderStopReading w).
Proof.
  intros Hd. apply message_types_distinct in Hd.
  refine (conj _ (conj _ _)); intros Hget;
    unfold run, Wiring.answered, handleMessage, dispatch, try_catch;
    unfold bind at 1; unfold lift; rewrite Hget.
  - rewrite (is_str_other (PAUSE_READING c) (START_READING c))
      by (intuition congruence).
    rewrite is_str_same. unfold_coordinator.
    now destruct (perform ReaderPauseReading w) as [[v|e] w1].
  - rewrite (is_str_other (RESUME_READING c) (START_READING c)),
      (is_str_other (RESUME_READING c) (PAUSE_READING c))
      by (intuition congruence).
    rewrite is_str_same. unfold_coordinator.
    now destruct (perform ReaderResumeReading w) as [[v|e] w1].
  - rewrite (is_str_other (STOP_READING c) (START_READING c)),
      (is_str_other (STOP_READING c) (PAUSE_READING c)),
      (is_str_other (STOP_READING c) (RESUME_READING c))
      by (intuition congruence).
    rewrite is_str_same. unfold_coordinator.
    now destruct (perform ReaderStopReading w) as [[v|e] w1].
Qed.

End Controls.

(** X11. PAUSE_READING, RESUME_READING and STOP_READING each make exactly
    one call, on the page reader's method of that name, and answer once:
    [{success: true}] when it returns, [{error: message}] when it throws.
    Neither the overlay nor the extractor is called. *)
Theorem control_dispatch
    (c : constants) {W : Type} `{!Collaborators W} (message : jsval) (w : W) :
  NoDup (message_types c) ->
  (get_prop message "type" = Ok (JStr (PAUSE_READING c)) ->
   run (handleMessage c message) w = Wiring.answered ReaderPauseReading w) /\
  (get_prop message "type" = Ok (JStr (RESUME_READING c)) ->
   run (handleMessage c message) w = Wiring.answered ReaderResumeReading w) /\
  (get_prop message "type" = Ok (JStr (STOP_READING c)) ->
   run (handleMessage c message) w = Wiring.answered ReaderStopReading w).
Proof. apply control_messages. Qed.

Lemma control_dispatch_witness :
  let w := Contract.loaded aura "Once upon a time" in
  NoDup (message_types aura) /\
  run (handleMessage (Collaborators0:=Contract.contract aura) aura
         (message_of_type (JStr "STOP_READING"))) w
  = (Ok tt, State w [Called ReaderStopReading (Ok JUndefined); Responded success]).
Proof.
  cbv zeta. split; [exact (proj2 aura_enumerations)|].
  exact (proj2 (proj2
           (control_dispatch (Collaborators0:=Contract.contract aura) aura
              (message_of_type (JStr "STOP_READING"))
              (Contract.loaded aura "Once upon a time") (proj2 aura_enumerations)))
           eq_refl).
Defined.

(** X12. A message whose [type] cannot be read ([null] or [undefined]) is
    still answered, once, with the message of the TypeError, and no
    collaborator is called. *)
Theorem unreadable_message_answered
    (c : constants) {W : Type} `{!Collaborators W} (message : jsval) (e : error) (w : W) :
  get_prop message "type" = Throw e ->
  (message = JNull \/ message = JUndefined) /\
  run (handleMessage c message) w =
    (Ok tt,
     State w [ConsoleError "Error handling message:" e;
              Responded (failure (JS.message e))]).
Proof.
  intros Hget. split.
  - destruct message; try discriminate Hget; auto.
  - unfold run, handleMessage, dispatch, try_catch. unfold bind at 1. unfold lift.
    rewrite Hget. reflexivity.
Qed.

Lemma unreadable_message_answered_witness :
  @run unit unit (@handleMessage aura unit Contract.failing_collaborators JNull) tt =
    (Ok tt,
     State tt
       [ConsoleError "Error handling message:"
          (Error "Cannot read properties of null (reading 'type')");
        Responded (failure "Cannot read properties of null (reading 'type')")]).
Proof.
  exact (proj2 (@unreadable_message_answered aura unit Contract.failing_collaborators
                  JNull _ tt eq_refl)).
Defined.

(** X13. A press on the overlay's pause, resume or stop button makes the
    same single call on the page reader as the message of that name, and
    leaves the collaborators in the same state.  The callback sends no
    response and logs nothing, and when the page reader throws it passes
    the error on to its caller, whereas the handler logs the error and
    answers [{error: message}]. *)
Theorem overlay_button_is_message
    (c : constants) {W : Type} `{!Collaborators W} (message : jsval) (w : W) :
  NoDup (message_types c) ->
  let same (k : call) (button : M (state W) unit) :=
    let outcome := fst (perform k w) in
    run button w
      = (match outcome with Ok _ => Ok tt | Throw e => Throw e end,
         State (snd (perform k w)) [Called k outcome]) /\
    run (handleMessage c message) w
      = (Ok tt,
         State (snd (perform k w))
           (Called k outcome ::
            match outcome with
            | Ok _ => [Responded success]
            | Throw e => [ConsoleError "Error handling message:" e;
                          Responded (failure (JS.message e))]
            end)) in
  (get_prop message "type" = Ok (JStr (PAUSE_READING c)) ->
   same ReaderPauseReading Wiring.onPause) /\
  (get_prop message "type" = Ok (JStr (RESUME_READING c)) ->
   same ReaderResumeReading Wiring.onResume) /\
  (get_prop message "type" = Ok (JStr (STOP_READING c)) ->
   same ReaderStopReading Wiring.onStop).
Proof.
  intros Hd. cbv zeta.
  destruct (control_messages c message w Hd) as (Hp & Hr & Hs).
  refine (conj _ (conj _ _)); intros Hget.
  - rewrite (Hp Hget). unfold Wiring.answered, Wiring.onPause. unfold_coordinator.
    now destruct (perform ReaderPauseReading w) as [[v|e] w1].
  - rewrite (Hr Hget). unfold Wiring.answered, Wiring.onResume. unfold_coordinator.
    now destruct (perform ReaderResumeReading w) as [[v|e] w1].
  - rewrite (Hs Hget). unfold Wiring.answered, Wiring.onStop. unfold_coordinator.
    now destruct (perform ReaderStopReading w) as [[v|e] w1].
Qed.

Lemma overlay_button_is_message_witness :
  let w := Contract.transition "reading" (Contract.loaded aura "Once upon a time") in
  let paused := Contract.transition "paused" w in
  NoDup (message_types aura) /\
  run (Wiring.onPause (Collaborators0:=Contract.contract aura)) w
    = (Ok tt, State paused [Called ReaderPauseReading (Ok JUndefined)]) /\
  run (handleMessage (Collaborators0:=Contract.contract aura) aura
         (message_of_type (JStr "PAUSE_READING"))) w
    = (Ok tt, State paused [Called ReaderPauseReading (Ok JUndefined);
                            Responded success]).
Proof.
  intros w paused. split; [exact (proj2 aura_enumerations)|].
  exact (proj1 (overlay_button_is_message (Collaborators0:=Contract.contract aura) aura
                  (message_of_type (JStr "PAUSE_READING")) w
                  (proj2 aura_enumerations)) eq_refl).
Defined.

(** Splitting a membership in an explicit list into its cases. *)
Ltac members H := rewrite ?elem_of_cons, ?elem_of_nil in H.

(** X14. [startReading] creates the overlay, shows it, or starts the page
    reader only when the extractor has returned a string that is neither
    empty nor white space; and what it starts the reader with is that
    string. *)
Theorem overlay_and_reader_need_content
    (c : constants) {W : Type} `{!Collaborators W} (w : W) (k : call) :
  k ∈ calls (trace (snd (run (Content.startReading c) w))) ->
  (k = OverlayCreate \/ k = OverlayShow \/ exists v, k = ReaderStartReading v) ->
  exists s w1,
    perform ExtractPageContent w = (Ok (JStr s), w1) /\
    s <> "" /\
    ~ whitespace_only s /\
    (forall v, k = ReaderStartReading v -> v = JStr s).
Proof.
  unfold_coordinator.
  destruct (perform ExtractPageContent w) as [[content|e0] w1] eqn:Hextract;
    cbn [fst snd world trace app].
  2: { repeat step; cbn; intros Hin Hk; members Hin;
       destruct Hk as [->|[->|[v ->]]]; intuition discriminate. }
  destruct (no_content content) as [[|]|e0] eqn:Hcontent;
    cbn [fst snd world trace app].
  1, 3: repeat step; cbn; intros Hin Hk; members Hin;
        destruct Hk as [->|[->|[v ->]]]; intuition discriminate.
  destruct (no_content_false content Hcontent) as (s & -> & Hne & Hws).
  repeat step; cbn; intros Hin Hk; exists s, w1;
    (split; [reflexivity|split; [exact Hne|split; [exact Hws|]]]);
    intros v ->; members Hin; intuition (try discriminate); congruence.
Qed.

Lemma overlay_and_reader_need_content_witness :
  let w := Contract.loaded aura "Once upon a time" in
  OverlayCreate ∈ calls (trace (snd (run
    (Content.startReading (Collaborators0:=Contract.contract aura) aura) w))) /\
  exists s w1,
    Contract.contract aura ExtractPageContent w = (Ok (JStr s), w1) /\ s <> "".
Proof.
  cbv zeta.
  assert (Hin : OverlayCreate ∈ calls (trace (snd (run
            (Content.startReading (Collaborators0:=Contract.contract aura) aura)
            (Contract.loaded aura "Once upon a time"))))).
  { assert (Hcalls : calls (trace (snd (run
              (Content.startReading (Collaborators0:=Contract.contract aura) aura)
              (Contract.loaded aura "Once upon a time")))) =
            [ExtractPageContent; OverlayExists; OverlayCreate; OverlayShow;
             OverlayUpdateStatus "idle"; OverlayUpdateButtons "idle";
             ReaderStartReading (JStr "Once upon a time")]).
    { vm_compute. reflexivity. }
    rewrite Hcalls. present. }
  split; [exact Hin|].
  destruct (overlay_and_reader_need_content (Collaborators0:=Contract.contract aura) aura
              (Contract.loaded aura "Once upon a time") OverlayCreate Hin
              (or_introl eq_refl)) as (s & w1 & Hextract & Hne & _).
  exists s, w1. split; [exact Hextract|exact Hne].
Defined.

(** One call or test at a time, keeping what a truthiness test found. *)
Ltac step_keeping :=
  match goal with
  | |- context [perform ?k ?w] =>
      destruct (perform k w) as [[?|?] ?]; cbn [fst snd world trace app negb]
  | |- context [truthy ?v] =>
      destruct (truthy v) eqn:?; cbn [fst snd world trace app negb]
  end.

(** A call other than the named one threw, against the assumption. *)
Ltac other_threw Honly :=
  match type of Honly with
  | forall k e, Called k (Throw e) ∈ ?t -> _ =>
      match t with
      | context [Called ?k (Throw ?e)] =>
          let Heq := fresh "Heq" in
          assert (Heq : k = _) by (apply (Honly k e); present);
          discriminate Heq
      end
  end.

(** X15. When [pageReader.startReading] rejects and nothing else throws,
    the coordinator logs the error, asks [overlay.exists()] again, shows
    ERROR on the overlay (status, then buttons) exactly when it exists, and
    answers START_READING with [{error: message}] of that same error. *)
Theorem reader_failure_reaches_overlay
    (c : constants) {W : Type} `{!Collaborators W}
    (message content : jsval) (e : error) (w : W) :
  get_prop message "type" = Ok (JStr (START_READING c)) ->
  let t := trace (snd (run (handleMessage c message) w)) in
  Called (ReaderStartReading content) (Throw e) ∈ t ->
  (forall k e', Called k (Throw e') ∈ t -> k = ReaderStartReading content) ->
  exists before exists_ shown,
    t = before
        ++ [Called (ReaderStartReading content) (Throw e);
            ConsoleError "Error starting reading:" e;
            Called OverlayExists (Ok exists_)]
        ++ shown
        ++ [ConsoleError "Error handling message:" e;
            Responded (failure (JS.message e))] /\
    if truthy exists_ then
      exists r1 r2,
        shown = [Called (OverlayUpdateStatus (ERROR c)) (Ok r1);
                 Called (OverlayUpdateButtons (ERROR c)) (Ok r2)]
    else shown = [].
Proof.
  intros Hget. cbv zeta. unfold run.
  pose proof (handleMessage_cases c message (State w [])) as Hcases.
  rewrite (dispatch_start c message _ Hget) in Hcases. revert Hcases.
  unfold_coordinator.
  destruct (perform ExtractPageContent w) as [[content0|e0] w1];
    cbn [fst snd world trace app].
  2: { repeat step; intros ->; cbn; intros Hin Honly; other_threw Honly. }
  destruct (no_content content0) as [[|]|e0];
    cbn [fst snd world trace app].
  1, 3: repeat step; intros ->; cbn; intros Hin Honly; exfalso;
        members Hin; intuition discriminate.
  repeat step_keeping; intros ->; cbn; intros Hin Honly;
    try other_threw Honly;
    try (exfalso; members Hin; intuition discriminate);
    members Hin;
    repeat match goal with
           | H : _ \/ _ |- _ => destruct H as [H|H]; try discriminate H
           | H : False |- _ => destruct H
           end;
    match goal with
    | H : Called _ _ = Called _ _ |- _ => injection H as -> ->
    end;
    first
      [ eexists [_; _; _; _; _; _], _, [_; _]; split; [reflexivity|]
      | eexists [_; _; _; _; _; _], _, []; split; [reflexivity|]
      | eexists [_; _; _; _; _], _, [_; _]; split; [reflexivity|]
      | eexists [_; _; _; _; _], _, []; split; [reflexivity|] ];
    match goal with
    | H : truthy ?v = _ |- context [truthy ?v] => rewrite H
    end;
    eauto.
Qed.

Lemma reader_failure_reaches_overlay_witness :
  let e := Error "Speech synthesis is not available" in
  let t := trace (snd (run (handleMessage (Collaborators0:=Wiring.speechless aura) aura
                              (message_of_type (JStr "START_READING")))
                         (Contract.loaded aura "Hi"))) in
  Called (ReaderStartReading (JStr "Hi")) (Throw e) ∈ t /\
  exists before exists_ shown,
    t = before
        ++ [Called (ReaderStartReading (JStr "Hi")) (Throw e);
            ConsoleError "Error starting reading:" e;
            Called OverlayExists (Ok exists_)]
        ++ shown
        ++ [ConsoleError "Error handling message:" e;
            Responded (failure "Speech synthesis is not available")].
Proof.
  cbv zeta.
  set (e := Error "Speech synthesis is not available").
  assert (Ht : trace (snd (run (handleMessage (Collaborators0:=Wiring.speechless aura) aura
                                  (message_of_type (JStr "START_READING")))
                             (Contract.loaded aura "Hi"))) =
               [Called ExtractPageContent (Ok (JStr "Hi"));
                Called OverlayExists (Ok (JBool false));
                Called OverlayCreate (Ok JUndefined);
                Called OverlayShow (Ok JUndefined);
                Called (OverlayUpdateStatus "idle") (Ok JUndefined);
                Called (OverlayUpdateButtons "idle") (Ok JUndefined);
                Called (ReaderStartReading (JStr "Hi")) (Throw e);
                ConsoleError "Error starting reading:" e;
                Called OverlayExists (Ok (JBool true));
                Called (OverlayUpdateStatus "error") (Ok JUndefined);
                Called (OverlayUpdateButtons "error") (Ok JUndefined);
                ConsoleError "Error handling message:" e;
                Responded (failure "Speech synthesis is not available")]).
  { vm_compute. reflexivity. }
  assert (Hin : Called (ReaderStartReading (JStr "Hi")) (Throw e)
                ∈ trace (snd (run (handleMessage (Collaborators0:=Wiring.speechless aura)
                                     aura (message_of_type (JStr "START_READING")))
                                (Contract.loaded aura "Hi")))).
  { rewrite Ht. present. }
  split; [exact Hin|].
  destruct (reader_failure_reaches_overlay (Collaborators0:=Wiring.speechless aura) aura
              (message_of_type (JStr "START_READING")) (JStr "Hi") e
              (Contract.loaded aura "Hi") eq_refl Hin)
    as (before & exists_ & shown & Hshape & _).
  - intros k e' Hk. rewrite Ht in Hk. members Hk.
    repeat match goal with
           | H : _ \/ _ |- _ => destruct H as [H|H]; try discriminate H
           | H : False |- _ => destruct H
           end.
    now injection Hk as -> _.
  - exists before, exists_, shown. exact Hshape.
Defined.

(** * The two scripts together *)

Section Channel.

Context (c : constants) {W : Type} `{!Collaborators W}.

Lemma typed_message (type : string) :
  get_prop (JObj {[ "type" := JStr type ]}) "type" = Ok (JStr type).
Proof. cbn. now rewrite lookup_singleton_eq. Qed.

Lemma report_status (status isReading isPaused : jsval) :
  get_prop (status_report status isReading isPaused) "status" = Ok status.
Proof.
  unfold status_report. cbn.
  rewrite !lookup_insert_ne by discriminate. now rewrite lookup_insert_eq.
Qed.

(** The active tab of [linked] is reached, and answers what [deliver]
    says. *)
Lemma linked_send (w : W) (tabId : Z) (type : string) :
  tabs_query (Wiring.linked c w tabId) = Ok [Tab tabId] /\
  tabs_sendMessage (Wiring.linked c w tabId) (id (Tab tabId))
    (JObj {[ "type" := JStr type ]})
  = (None, Wiring.deliver c w (JObj {[ "type" := JStr type ]})).
Proof.
  split; [reflexivity|]. unfold Wiring.linked. cbn [tabs_sendMessage id].
  now rewrite Z.eqb_refl.
Qed.

(** With empty or white-space content [startReading] throws. *)
Lemma startReading_blank_throws (s : string) (w w1 : W) (t0 : list event) :
  perform ExtractPageContent w = (Ok (JStr s), w1) ->
  whitespace_only s ->
  exists e, fst (Content.startReading c (State w t0)) = Throw e.
Proof.
  intros Hextract Hws. unfold_coordinator.
  rewrite Hextract, (no_content_whitespace s Hws). cbn [fst snd world trace app].
  repeat step; now eexists.
Qed.

End Channel.

(** X16. Popup and coordinator together: when the popup polls a tab whose
    page reader reports the non-empty status [s], the coordinator answers
    [{status: s, isReading, isPaused}] and the popup ends with [s] on
    display. *)
Theorem popup_adopts_reader_status
    (c : constants) {W : Type} `{!Collaborators W}
    (w w1 w2 w3 : W) (tabId : Z) (p : popup) (s : string) (isReading isPaused : jsval) :
  NoDup (message_types c) ->
  perform ReaderGetStatus w = (Ok (JStr s), w1) ->
  perform ReaderIsReading w1 = (Ok isReading, w2) ->
  perform ReaderIsPaused w2 = (Ok isPaused, w3) ->
  s <> "" ->
  Wiring.deliver c w (JObj {[ "type" := JStr (GET_STATUS c) ]})
    = status_report (JStr s) isReading isPaused /\
  refreshStatus c (Wiring.linked c w tabId) p
    = (updateStatus c (JStr s) ;; updateButtons c (JStr s)) p /\
  currentStatus (snd (refreshStatus c (Wiring.linked c w tabId) p)) = JStr s.
Proof.
  intros Hd H1 H2 H3 Hne.
  assert (Hdeliver : Wiring.deliver c w (JObj {[ "type" := JStr (GET_STATUS c) ]})
                     = status_report (JStr s) isReading isPaused).
  { unfold Wiring.deliver, Wiring.listener, run. cbn [snd].
    rewrite (get_status_reads_reader c _ (JStr s) isReading isPaused w w1 w2 w3 []
               Hd (typed_message (GET_STATUS c)) H1 H2 H3).
    reflexivity. }
  assert (Hrun : refreshStatus c (Wiring.linked c w tabId) p
                 = (updateStatus c (JStr s) ;; updateButtons c (JStr s)) p).
  { destruct (linked_send c w tabId (GET_STATUS c)) as [Hq Hs].
    unfold_handler. rewrite Hq. cbn [head]. rewrite Hs, Hdeliver.
    cbn [truthy status_report]. rewrite report_status.
    assert (Ht : truthy (JStr s) = true).
    { cbn. apply negb_true_iff. now apply String.eqb_neq. }
    rewrite Ht, updateStatus_string. reflexivity. }
  refine (conj Hdeliver (conj Hrun _)).
  rewrite Hrun. apply show_string_status.
Qed.

Lemma popup_adopts_reader_status_witness :
  let w := Contract.transition "paused" (Contract.loaded aura "Once upon a time") in
  NoDup (message_types aura) /\
  currentStatus
    (snd (refreshStatus aura
            (Wiring.linked (Collaborators0:=Contract.contract aura) aura w 7)
            (untouched aura)))
  = JStr "paused".
Proof.
  cbv zeta. split; [exact (proj2 aura_enumerations)|].
  refine (proj2 (proj2
            (popup_adopts_reader_status (Collaborators0:=Contract.contract aura) aura
               (Contract.transition "paused" (Contract.loaded aura "Once upon a time"))
               _ _ _ 7 (untouched aura) "paused" (JBool false) (JBool true)
               (proj2 aura_enumerations) eq_refl eq_refl eq_refl _))).
  discriminate.
Defined.

(** X17. Popup and coordinator together: on a page whose content is
    empty or white space the coordinator answers START_READING with an
    error object, yet the popup, which does not read the response, ends
    with READING on display. *)
Theorem popup_reads_while_page_is_blank
    (c : constants) {W : Type} `{!Collaborators W}
    (w w1 : W) (tabId : Z) (p : popup) (s : string) :
  perform ExtractPageContent w = (Ok (JStr s), w1) ->
  whitespace_only s ->
  (exists m, Wiring.deliver c w (JObj {[ "type" := JStr (START_READING c) ]})
             = failure m) /\
  currentStatus (snd (Popup.startReading c (Wiring.linked c w tabId) p))
    = JStr (READING c).
Proof.
  intros Hextract Hws. split.
  - unfold Wiring.deliver, Wiring.listener, run. cbn [snd].
    pose proof (handleMessage_cases c (JObj {[ "type" := JStr (START_READING c) ]})
                  (State w [])) as Hcases.
    rewrite (dispatch_start c _ _ (typed_message (START_READING c))) in Hcases.
    destruct (startReading_blank_throws c s w w1 [] Hextract Hws) as [e He].
    pose proof (startReading_silent c (State w [])) as Hsilent.
    destruct (Content.startReading c (State w [])) as [[[]|e'] s'];
      cbn [fst snd] in *; [discriminate He|].
    rewrite Hcases. cbn [snd trace]. exists (JS.message e').
    rewrite app_assoc, responses_snoc, responses_console, Hsilent. reflexivity.
  - destruct (linked_send c w tabId (START_READING c)) as [Hq Hs].
    rewrite (startReading_sent c _ p (Tab tabId) [] _ Hq Hs).
    apply show_string_status.
Qed.

Lemma popup_reads_while_page_is_blank_witness :
  let blank := String (ascii_of_nat 32) (String (ascii_of_nat 10) "") in
  whitespace_only blank /\
  currentStatus
    (snd (Popup.startReading aura
            (Wiring.linked (Collaborators0:=Contract.contract aura) aura
               (Contract.loaded aura blank) 7)
            (untouched aura)))
  = JStr "reading".
Proof.
  cbv zeta.
  assert (Hws : whitespace_only (String (ascii_of_nat 32) (String (ascii_of_nat 10) ""))).
  { apply ws_one; [reflexivity|]. apply ws_one; [reflexivity|]. apply ws_empty. }
  split; [exact Hws|].
  exact (proj2 (popup_reads_while_page_is_blank (Collaborators0:=Contract.contract aura)
                  aura (Contract.loaded aura _) (Contract.loaded aura _) 7 (untouched aura)
                  _ eq_refl Hws)).
Defined.

(** * Further properties of the polling timer *)

Lemma steps_stay_cleared (l : list Polling.step) (w : Polling.window) :
  Polling.guarded w -> Polling.timers w = ∅ ->
  Polling.timers (Polling.steps w l) = ∅.
Proof.
  revert w. induction l as [|[|] l IH]; intros w Hw Ht; [exact Ht| |];
    unfold Polling.steps; cbn [foldl Polling.do_step].
  - apply IH; [now apply tick_guarded|].
    unfold Polling.tick. cbn [Polling.timers]. rewrite Ht. apply fmap_empty.
  - destruct (unload_guarded w Hw) as (Hempty & Hg & _). now apply IH.
Qed.

(** X18. From the [beforeunload] event on no timer is set in the popup's
    window, whatever happens afterwards: the handle the script obtained
    from [setInterval] is the one its listener clears. *)
Theorem timer_cleared_for_good (t0 : N) (before after : list Polling.step) :
  Polling.timers
    (Polling.steps (Polling.script (Polling.opened t0))
       (before ++ Polling.BeforeUnload :: after)) = ∅.
Proof.
  rewrite script_opened, steps_app.
  pose proof (steps_guarded before _ (guarded_polling t0 0 0)) as Hg.
  set (w := Polling.steps (Polling.polling t0 0 0) before) in *.
  unfold Polling.steps at 1. cbn [foldl Polling.do_step].
  fold (Polling.steps (Polling.unload w) after).
  destruct (unload_guarded w Hg) as (Hempty & Hg' & _).
  now apply steps_stay_cleared.
Qed.

(** * The dispatcher, branch by branch *)

Section Branches.

Context (c : constants) {W : Type} `{!Collaborators W}.

(** START_READING is answered after [startReading]: with the success
    object when it returns, with its error's message when it throws. *)
Lemma start_answered (message : jsval) (w : W) :
  get_prop message "type" = Ok (JStr (START_READING c)) ->
  fst (run (handleMessage c message) w) = Ok tt /\
  responses (trace (snd (run (handleMessage c message) w))) =
    [match fst (run (Content.startReading c) w) with
     | Ok _ => success
     | Throw e => failure (JS.message e)
     end].
Proof.
  intros Hget. unfold run.
  pose proof (handleMessage_cases c message (State w [])) as Hcases.
  rewrite (dispatch_start c message _ Hget) in Hcases.
  pose proof (startReading_silent c (State w [])) as Hsilent.
  destruct (Content.startReading c (State w [])) as [[[]|e] s'];
    cbn [fst snd trace] in *.
  - rewrite sendResponse_once in Hcases. rewrite Hcases. cbn [fst snd trace].
    now rewrite responses_snoc, Hsilent.
  - rewrite Hcases. cbn [fst snd trace].
    now rewrite app_assoc, responses_snoc, responses_console, Hsilent.
Qed.

(** GET_STATUS is answered with the three values in the order they were
    read, or with the message of the first read that threw. *)
Lemma get_status_answered (message : jsval) (w : W) :
  NoDup (message_types c) ->
  get_prop message "type" = Ok (JStr (GET_STATUS c)) ->
  fst (run (handleMessage c message) w) = Ok tt /\
  responses (trace (snd (run (handleMessage c message) w))) =
    [match perform ReaderGetStatus w with
     | (Throw e, _) => failure (JS.message e)
     | (Ok status, w1) =>
         match perform ReaderIsReading w1 with
         | (Throw e, _) => failure (JS.message e)
         | (Ok isReading, w2) =>
             match perform ReaderIsPaused w2 with
             | (Throw e, _) => failure (JS.message e)
             | (Ok isPaused, _) => status_report status isReading isPaused
             end
         end
     end].
Proof.
  intros Hd Hget. apply message_types_distinct in Hd.
  remember (run (handleMessage c message) w) as r eqn:Hr. revert Hr.
  unfold run, handleMessage, dispatch, try_catch. unfold bind at 1. unfold lift.
  rewrite Hget.
  rewrite !(is_str_other (GET_STATUS c)) by (intuition congruence).
  rewrite is_str_same. unfold_coordinator.
  destruct (perform ReaderGetStatus w) as [[status|e] w1];
    cbn [fst snd world trace app]; [|now intros ->].
  destruct (perform ReaderIsReading w1) as [[isReading|e] w2];
    cbn [fst snd world trace app]; [|now intros ->].
  destruct (perform ReaderIsPaused w2) as [[isPaused|e] w3];
    cbn [fst snd world trace app]; now intros ->.
Qed.

Lemma answered_once (k : call) (w : W) :
  fst (Wiring.answered k w) = Ok tt /\
  responses (trace (snd (Wiring.answered k w))) =
    [match fst (perform k w) with
     | Ok _ => success
     | Throw e => failure (JS.message e)
     end].
Proof.
  unfold Wiring.answered. now destruct (perform k w) as [[v|e] w1].
Qed.

End Branches.

(** C9. The handler answers every message exactly once and never rejects.
    The one response is decided by the branch: after START_READING,
    PAUSE_READING, RESUME_READING and STOP_READING the success object when
    the action returns; after GET_STATUS the status report of the three
    values read; for any other type the unknown-type error; and whenever
    the branch throws, reading [message.type] included, [{error:
    error.message}] of what was thrown. *)
Theorem handleMessage_responds_once
    (c : constants) {W : Type} `{!Collaborators W} (message : jsval) (w : W) :
  let handled := run (handleMessage c message) w in
  let body := run (dispatch c message) w in
  let one (v : jsval) :=
    fst handled = Ok tt /\ responses (trace (snd handled)) = [v] in
  (fst handled = Ok tt /\ exists v, responses (trace (snd handled)) = [v]) /\
  match fst body with
  | Ok _ => handled = body /\ exists v, responses (trace (snd body)) = [v]
  | Throw e => responses (trace (snd body)) = [] /\ one (failure (JS.message e))
  end /\
  (NoDup (message_types c) ->
   (forall e, get_prop message "type" = Throw e -> one (failure (JS.message e))) /\
   (get_prop message "type" = Ok (JStr (START_READING c)) ->
    one match fst (run (Content.startReading c) w) with
        | Ok _ => success
        | Throw e => failure (JS.message e)
        end) /\
   (get_prop message "type" = Ok (JStr (PAUSE_READING c)) ->
    one match fst (perform ReaderPauseReading w) with
        | Ok _ => success
        | Throw e => failure (JS.message e)
        end) /\
   (get_prop message "type" = Ok (JStr (RESUME_READING c)) ->
    one match fst (perform ReaderResumeReading w) with
        | Ok _ => success
        | Throw e => failure (JS.message e)
        end) /\
   (get_prop message "type" = Ok (JStr (STOP_READING c)) ->
    one match fst (perform ReaderStopReading w) with
        | Ok _ => success
        | Throw e => failure (JS.message e)
        end) /\
   (get_prop message "type" = Ok (JStr (GET_STATUS c)) ->
    one match perform ReaderGetStatus w with
        | (Throw e, _) => failure (JS.message e)
        | (Ok status, w1) =>
            match perform ReaderIsReading w1 with
            | (Throw e, _) => failure (JS.message e)
            | (Ok isReading, w2) =>
                match perform ReaderIsPaused w2 with
                | (Throw e, _) => failure (JS.message e)
                | (Ok isPaused, _) => status_report status isReading isPaused
                end
            end
        end) /\
   (forall type,
      get_prop message "type" = Ok type ->
      (forall t, t ∈ message_types c -> type <> JStr t) ->
      one (failure "Unknown message type"))).
Proof.
  cbv zeta. refine (conj _ (conj _ _)).
  - exact (handleMessage_answer c message (State w [])).
  - unfold run.
    pose proof (handleMessage_answer c message (State w [])) as [Hok _].
    pose proof (handleMessage_cases c message (State w [])) as Hcases.
    pose proof (dispatch_answers_once c message (State w [])) as Honce.
    destruct (dispatch c message (State w [])) as [[[]|e] s']; cbn [fst snd trace] in *.
    + split; [exact Hcases|]. destruct Honce as (v & Hv & _). now exists v.
    + split; [exact Honce|]. split; [exact Hok|]. rewrite Hcases. cbn [snd trace].
      now rewrite app_assoc, responses_snoc, responses_console, Honce.
  - intros Hd. destruct (control_messages c message w Hd) as (Hp & Hr & Hs).
    refine (conj _ (conj _ (conj _ (conj _ (conj _ (conj _ _)))))).
    + intros e Hget.
      remember (run (handleMessage c message) w) as r eqn:Hrun. revert Hrun.
      unfold run, handleMessage, dispatch, try_catch. unfold bind at 1. unfold lift.
      rewrite Hget. now intros ->.
    + apply start_answered.
    + intros Hget. rewrite (Hp Hget). apply answered_once.
    + intros Hget. rewrite (Hr Hget). apply answered_once.
    + intros Hget. rewrite (Hs Hget). apply answered_once.
    + apply (get_status_answered c message w Hd).
    + intros type Hget Hnone.
      remember (run (handleMessage c message) w) as r eqn:Hrun. revert Hrun.
      unfold run, handleMessage, dispatch, try_catch. unfold bind at 1. unfold lift.
      rewrite Hget.
      rewrite !is_str_false
        by (apply Hnone; unfold message_types; rewrite !elem_of_cons; tauto).
      now intros ->.
Qed.

Lemma handleMessage_responds_once_witness :
  let w := Contract.transition "paused" (Contract.loaded aura "Once upon a time") in
  let responses_to type :=
    responses (trace (snd (run (handleMessage (Collaborators0:=Contract.contract aura) aura
                                  (message_of_type (JStr type))) w))) in
  NoDup (message_types aura) /\
  responses_to "GET_STATUS" = [status_report (JStr "paused") (JBool false) (JBool true)] /\
  responses_to "RESUME_READING" = [success] /\
  responses_to "TOGGLE_READING" = [failure "Unknown message type"].
Proof.
  intros w responses_to. subst responses_to. cbv beta.
  pose proof (proj2 aura_enumerations) as Hd.
  refine (conj Hd (conj _ (conj _ _))).
  - exact (proj2 (proj1 (proj2 (proj2 (proj2 (proj2 (proj2
             (proj2 (proj2
                (handleMessage_responds_once (Collaborators0:=Contract.contract aura)
                   aura (message_of_type (JStr "GET_STATUS")) w)) Hd)))))) eq_refl)).
  - exact (proj2 (proj1 (proj2 (proj2 (proj2
             (proj2 (proj2
                (handleMessage_responds_once (Collaborators0:=Contract.contract aura)
                   aura (message_of_type (JStr "RESUME_READING")) w)) Hd)))) eq_refl)).
  - refine (proj2 (proj2 (proj2 (proj2 (proj2 (proj2 (proj2
             (proj2 (proj2
                (handleMessage_responds_once (Collaborators0:=Contract.contract aura)
                   aura (message_of_type (JStr "TOGGLE_READING")) w)) Hd))))))
             (JStr "TOGGLE_READING") eq_refl _)).
    intros t Ht Heq. injection Heq as <-.
    revert Ht. apply (bool_decide_unpack _). vm_compute. exact I.
Defined.
